(** * Session manager of the Stable Diffusion image generator

    A shallow embedding of the two generator classes of the repository,
    [StableDiffusionGenerator] (app.py) and
    [MinifiedStableDiffusionGenerator] (minified_app.py), and of the two
    interface functions that the user interface calls.

    The Python objects are mutable and their methods call into torch and
    diffusers.  The embedding threads the generator object explicitly, logs
    every call that leaves the repository as an [Event], and takes the answer
    of each such call from a [World]: one record of oracles per method call.
    An exception is an outcome of its own, so that "returns a message" and
    "raises" are different results. *)

From Stdlib Require Import ZArith QArith Ascii String List Bool Lia DecimalString.
From Stdlib Require Import Sorted Permutation OrderedTypeEx.
Import ListNotations.
Local Open Scope string_scope.
Local Open Scope Z_scope.

(** ** Python values *)

(** The two device strings the code can hold in [self.device]. *)
Inductive Device : Type := cuda | cpu.

Definition Device_eqb (a b : Device) : bool :=
  match a, b with
  | cuda, cuda | cpu, cpu => true
  | _, _ => false
  end.

(** An exception object of a class derived from [Exception]: its class name
    and the text [str(e)] gives.  Every handler in the two files is
    [except Exception] (one bare [except] apart), so these are the exceptions
    a handler catches. *)
Record Exn : Type := mkExn { exn_class : string; exn_text : string }.

(** [str(e)] *)
Definition str_exn (e : Exn) : string := exn_text e.

(** What reading a missing instance attribute raises. *)
Definition AttributeError (cls attr : string) : Exn :=
  mkExn "AttributeError"
        ("'" ++ cls ++ "' object has no attribute '" ++ attr ++ "'").

(** What [l[0]] raises on an empty list. *)
Definition IndexError : Exn := mkExn "IndexError" "list index out of range".

(** [str(n)] for a Python int. *)
Definition str_int (n : Z) : string := NilZero.string_of_int (Z.to_int n).

(** An instance attribute: [del self.x] removes the binding, it does not
    bind [None]. *)
Inductive Attr (A : Type) : Type :=
| Deleted
| Bound (v : A).
Arguments Deleted {A}.
Arguments Bound {A} v.

(** A call either returns a value or raises. *)
Inductive Outcome (A : Type) : Type :=
| Returns (a : A)
| Raises (e : Exn).
Arguments Returns {A} a.
Arguments Raises {A} e.

(** ** The diffusers objects the code holds *)

Inductive PipelineClass : Type :=
| StableDiffusionPipeline
| StableDiffusionXLPipeline.

(** The configuration dictionary of a scheduler. *)
Definition SchedulerConfig : Type := list (string * string).

Inductive Scheduler : Type :=
| NativeScheduler (config : SchedulerConfig)
| DPMSolverMultistepScheduler (config : SchedulerConfig)
    (use_karras_sigmas : bool) (algorithm_type : option string).

(** [scheduler.config] *)
Definition scheduler_config (s : Scheduler) : SchedulerConfig :=
  match s with
  | NativeScheduler c => c
  | DPMSolverMultistepScheduler c _ _ => c
  end.

(** A pipeline object, as far as the two files configure it.  A pipeline
    just built by [from_pretrained] or [from_single_file] carries the
    scheduler of the artifact, has no slicing enabled and lives on the host
    ([fresh_pipeline]). *)
Record Pipeline : Type := mkPipeline {
  pipe_class : PipelineClass;
  pipe_source : string;
  scheduler : Scheduler;
  attention_slicing : bool;
  vae_slicing : bool;
  xformers : bool;
  pipe_device : Device
}.

Definition fresh_pipeline (cls : PipelineClass) (source : string)
           (native : SchedulerConfig) : Pipeline :=
  mkPipeline cls source (NativeScheduler native) false false false cpu.

Definition set_scheduler (p : Pipeline) (s : Scheduler) : Pipeline :=
  mkPipeline (pipe_class p) (pipe_source p) s (attention_slicing p)
             (vae_slicing p) (xformers p) (pipe_device p).

Definition set_attention_slicing (p : Pipeline) : Pipeline :=
  mkPipeline (pipe_class p) (pipe_source p) (scheduler p) true
             (vae_slicing p) (xformers p) (pipe_device p).

Definition set_vae_slicing (p : Pipeline) : Pipeline :=
  mkPipeline (pipe_class p) (pipe_source p) (scheduler p)
             (attention_slicing p) true (xformers p) (pipe_device p).

Definition set_xformers (p : Pipeline) : Pipeline :=
  mkPipeline (pipe_class p) (pipe_source p) (scheduler p)
             (attention_slicing p) (vae_slicing p) true (pipe_device p).

Definition set_device (p : Pipeline) (d : Device) : Pipeline :=
  mkPipeline (pipe_class p) (pipe_source p) (scheduler p)
             (attention_slicing p) (vae_slicing p) (xformers p) d.

(** A decoded image: opaque, named by a token. *)
Inductive Image : Type := PILImage (token : Z).

(** [torch.Generator(device=d).manual_seed(seed)]: the seeded stream. *)
Record Generator : Type := mkGenerator { gen_device : Device; gen_seed : Z }.

(** The keyword arguments of the pipeline call of [generate_image]. *)
Record PipelineArgs : Type := mkPipelineArgs {
  arg_prompt : string;
  arg_negative_prompt : option string;
  arg_num_inference_steps : Z;
  arg_guidance_scale : Q;
  arg_width : Z;
  arg_height : Z;
  arg_generator : Generator
}.

(** The keyword arguments of [from_pretrained] and of [from_single_file]. *)
Record PretrainedKwargs : Type := mkPretrainedKwargs {
  torch_dtype : string;
  use_safetensors : bool;
  variant : option string
}.

Record SingleFileKwargs : Type := mkSingleFileKwargs {
  sf_torch_dtype : string;
  sf_use_safetensors : bool;
  load_safety_checker : bool;
  requires_safety_checker : bool
}.

(** ** Calls that leave the repository *)

Inductive Event : Type :=
| EvEmptyCache
| EvFromPretrained (cls : PipelineClass) (path : string) (kw : PretrainedKwargs)
| EvFromSingleFile (path : string) (kw : SingleFileKwargs)
| EvFromConfig (config : SchedulerConfig) (use_karras_sigmas : bool)
               (algorithm_type : option string)
| EvEnableAttentionSlicing (p : Pipeline)
| EvEnableVaeSlicing (p : Pipeline)
| EvEnableXformers (p : Pipeline)
| EvTo (p : Pipeline) (d : Device)
| EvRandint (low high : Z)
| EvManualSeed (d : Device) (seed : Z)
| EvPipelineCall (p : Pipeline) (args : PipelineArgs)
| EvPrint (line : string).

(** The event that gives device memory back. *)
Definition is_release (ev : Event) : bool :=
  match ev with
  | EvEmptyCache => true
  | _ => false
  end.

(** What the libraries and the file system answer during one method call.
    A procedure answers [None] when it returns and [Some e] when it raises
    [e]. *)
Record World : Type := mkWorld {
  cuda_is_available : bool;
  joinpath : string -> string -> string;
  path_exists : string -> bool;
  from_pretrained : PipelineClass -> string -> PretrainedKwargs ->
                    Outcome SchedulerConfig;
  from_single_file : string -> SingleFileKwargs -> Outcome SchedulerConfig;
  from_config : SchedulerConfig -> bool -> option string -> option Exn;
  enable_attention_slicing : Pipeline -> option Exn;
  enable_vae_slicing : Pipeline -> option Exn;
  enable_xformers_memory_efficient_attention : Pipeline -> option Exn;
  to_device : Pipeline -> Device -> option Exn;
  empty_cache : option Exn;
  randint_raw : Z;
  manual_seed : Device -> Z -> option Exn;
  call_pipeline : Pipeline -> PipelineArgs -> Outcome (list Image)
}.

(** ** A monad for methods: generator object, event log, exceptions *)

Section Method.

Context {S : Type}.

Definition M (A : Type) : Type := S -> Outcome A * S * list Event.

Definition ret {A} (a : A) : M A := fun s => (Returns a, s, []).

Definition raise {A} (e : Exn) : M A := fun s => (Raises e, s, []).

Definition bind {A B} (m : M A) (k : A -> M B) : M B :=
  fun s =>
    match m s with
    | (Returns a, s1, l1) =>
        match k a s1 with
        | (r, s2, l2) => (r, s2, (l1 ++ l2)%list)
        end
    | (Raises e, s1, l1) => (Raises e, s1, l1)
    end.

(** [try: body  except Exception as e: handler(e)] *)
Definition try_except {A} (body : M A) (handler : Exn -> M A) : M A :=
  fun s =>
    match body s with
    | (Returns a, s1, l1) => (Returns a, s1, l1)
    | (Raises e, s1, l1) =>
        match handler e s1 with
        | (r, s2, l2) => (r, s2, (l1 ++ l2)%list)
        end
    end.

Definition get_self : M S := fun s => (Returns s, s, []).

Definition put_self (s' : S) : M unit := fun _ => (Returns tt, s', []).

(** A library function that returns a value or raises. *)
Definition extern {A} (ev : Event) (answer : Outcome A) : M A :=
  fun s => (answer, s, [ev]).

(** A library procedure. *)
Definition extern_proc (ev : Event) (answer : option Exn) : M unit :=
  extern ev (match answer with None => Returns tt | Some e => Raises e end).

End Method.

Arguments M S A : clear implicits.

Declare Scope method_scope.
Delimit Scope method_scope with method.
Notation "x <- c ;; k" := (bind c (fun x => k))
  (at level 61, c at next level, right associativity) : method_scope.
Notation "c ;; k" := (bind c (fun _ => k))
  (at level 61, right associativity) : method_scope.
Local Open Scope method_scope.

Definition outcome {S A} (r : Outcome A * S * list Event) : Outcome A :=
  fst (fst r).
Definition state_after {S A} (r : Outcome A * S * list Event) : S :=
  snd (fst r).
Definition events {S A} (r : Outcome A * S * list Event) : list Event :=
  snd r.

(** ** torch *)

(** [torch.randint(low, high, (1,)).item()]: one integer of the half-open
    range from [low] up to, not including, [high]; torch refuses an empty
    range.  [randint_raw] is the raw draw of the world. *)
Definition torch_randint {S} (w : World) (low high : Z) : M S Z :=
  extern (EvRandint low high)
         (if low <? high
          then Returns (low + randint_raw w mod (high - low))
          else Raises (mkExn "RuntimeError"
                 "random_ expects 'from' to be less than 'to'")).

(** [torch.Generator(device=d).manual_seed(seed)] *)
Definition Generator_manual_seed {S} (w : World) (d : Device) (seed : Z)
  : M S Generator :=
  extern_proc (EvManualSeed d seed) (manual_seed w d seed) ;;
  ret (mkGenerator d seed).

(** ** diffusers *)

(** [DPMSolverMultistepScheduler.from_config(config, use_karras_sigmas=k,
    algorithm_type=a)]: the multistep solver configured from [config] with
    the two keywords ([a] is [None] when the keyword is not passed), or the
    exception the library raises. *)
Definition DPMSolverMultistepScheduler_from_config {S} (w : World)
           (config : SchedulerConfig) (use_karras_sigmas : bool)
           (algorithm_type : option string) : M S Scheduler :=
  extern_proc (EvFromConfig config use_karras_sigmas algorithm_type)
              (from_config w config use_karras_sigmas algorithm_type) ;;
  ret (DPMSolverMultistepScheduler config use_karras_sigmas algorithm_type).

(** [result.images[0]] *)
Definition first_image {S} (images : list Image) : M S Image :=
  match images with
  | [] => raise IndexError
  | image :: _ => ret image
  end.

(** ** app.py *)

Module StableDiffusionGenerator.

(** The generator object: its four instance attributes. *)
Record Self : Type := mkSelf {
  model_path : string;
  device : Device;
  pipeline : Attr (option Pipeline);
  current_model : option string
}.

(** [__init__(self, model_path, device)]; the module-level object is built
    with the defaults, [default_model_path] and [cuda]. *)
Definition __init__ (w : World) (model_path : string) (device : Device)
  : Self :=
  mkSelf model_path (if cuda_is_available w then device else cpu)
         (Bound None) None.

Definition default_model_path : string := "./models".

(** [self.pipeline], read *)
Definition self_pipeline : M Self (option Pipeline) :=
  self <- get_self ;;
  match pipeline self with
  | Bound v => ret v
  | Deleted => raise (AttributeError "StableDiffusionGenerator" "pipeline")
  end.

(** [self.pipeline.attr]: the pipeline object an attribute is taken from *)
Definition self_pipeline_object (attr : string) : M Self Pipeline :=
  v <- self_pipeline ;;
  match v with
  | Some p => ret p
  | None => raise (AttributeError "NoneType" attr)
  end.

(** [self.pipeline = v] *)
Definition set_self_pipeline (v : option Pipeline) : M Self unit :=
  self <- get_self ;;
  put_self (mkSelf (model_path self) (device self) (Bound v)
                   (current_model self)).

(** [del self.pipeline] *)
Definition del_self_pipeline : M Self unit :=
  self <- get_self ;;
  match pipeline self with
  | Bound _ =>
      put_self (mkSelf (model_path self) (device self) Deleted
                       (current_model self))
  | Deleted => raise (AttributeError "StableDiffusionGenerator" "pipeline")
  end.

(** [self.current_model = v] *)
Definition set_self_current_model (v : option string) : M Self unit :=
  self <- get_self ;;
  put_self (mkSelf (model_path self) (device self) (pipeline self) v).

Definition sdxl_kwargs : PretrainedKwargs :=
  mkPretrainedKwargs "float16" true (Some "fp16").

Definition sd_kwargs : PretrainedKwargs :=
  mkPretrainedKwargs "float16" true None.

(** [load_model(self, model_name, model_type)] *)
Definition load_model (w : World) (model_name model_type : string)
  : M Self (option Pipeline * string) :=
  try_except
    (self <- get_self ;;
     let model_full_path := joinpath w (model_path self) model_name in
     if negb (path_exists w model_full_path) then
       ret (None, "Model not found at " ++ model_full_path)
     else
       (* Clear previous model from memory *)
       (old <- self_pipeline ;;
        match old with
        | Some _ =>
            del_self_pipeline ;;
            extern_proc EvEmptyCache (empty_cache w)
        | None => ret tt
        end) ;;
       (* Load appropriate pipeline based on model type *)
       (if String.eqb model_type "SDXL" then
          native <- extern (EvFromPretrained StableDiffusionXLPipeline
                                             model_full_path sdxl_kwargs)
                           (from_pretrained w StableDiffusionXLPipeline
                                            model_full_path sdxl_kwargs) ;;
          set_self_pipeline
            (Some (fresh_pipeline StableDiffusionXLPipeline
                                  model_full_path native))
        else
          native <- extern (EvFromPretrained StableDiffusionPipeline
                                             model_full_path sd_kwargs)
                           (from_pretrained w StableDiffusionPipeline
                                            model_full_path sd_kwargs) ;;
          set_self_pipeline
            (Some (fresh_pipeline StableDiffusionPipeline
                                  model_full_path native))) ;;
       (* Use DPM++ 2M Karras scheduler for better quality *)
       (p <- self_pipeline_object "scheduler" ;;
        refined <- DPMSolverMultistepScheduler_from_config
                     w (scheduler_config (scheduler p)) true None ;;
        p <- self_pipeline_object "scheduler" ;;
        set_self_pipeline (Some (set_scheduler p refined))) ;;
       (* Enable memory optimizations *)
       (p <- self_pipeline_object "enable_attention_slicing" ;;
        extern_proc (EvEnableAttentionSlicing p)
                    (enable_attention_slicing w p) ;;
        set_self_pipeline (Some (set_attention_slicing p))) ;;
       (p <- self_pipeline_object "enable_vae_slicing" ;;
        extern_proc (EvEnableVaeSlicing p) (enable_vae_slicing w p) ;;
        set_self_pipeline (Some (set_vae_slicing p))) ;;
       (* Move to device *)
       (p <- self_pipeline_object "to" ;;
        self <- get_self ;;
        extern_proc (EvTo p (device self)) (to_device w p (device self)) ;;
        set_self_pipeline (Some (set_device p (device self)))) ;;
       set_self_current_model (Some model_name) ;;
       handle <- self_pipeline ;;
       ret (handle, "Successfully loaded " ++ model_name))
    (fun e => ret (None, "Error loading model: " ++ str_exn e)).

(** [negative_prompt if negative_prompt else None] *)
Definition negative_prompt_or_None (negative_prompt : string)
  : option string :=
  match negative_prompt with
  | EmptyString => None
  | _ => Some negative_prompt
  end.

(** [generate_image(self, prompt, negative_prompt, num_inference_steps,
    guidance_scale, width, height, seed)] *)
Definition generate_image (w : World) (prompt negative_prompt : string)
           (num_inference_steps : Z) (guidance_scale : Q) (width height : Z)
           (seed : Z)
  : M Self (option Image * string) :=
  current <- self_pipeline ;;
  match current with
  | None => ret (None, "Please load a model first")
  | Some _ =>
      try_except
        ((* Set random seed for reproducibility *)
         seed <- (if Z.eqb seed (-1)
                  then torch_randint w 0 (2 ^ 32 - 1)
                  else ret seed) ;;
         self <- get_self ;;
         generator <- Generator_manual_seed w (device self) seed ;;
         (* Generate image *)
         p <- self_pipeline_object "__call__" ;;
         let args :=
           mkPipelineArgs prompt (negative_prompt_or_None negative_prompt)
                          num_inference_steps guidance_scale width height
                          generator in
         images <- extern (EvPipelineCall p args) (call_pipeline w p args) ;;
         image <- first_image images ;;
         let info := "Generated with seed: " ++ str_int seed in
         ret (Some image, info))
        (fun e => ret (None, "Error generating image: " ++ str_exn e))
  end.

(** [load_model_interface(model_name, model_type)], on the module-level
    generator object *)
Definition load_model_interface (w : World) (model_name model_type : string)
  : M Self string :=
  r <- load_model w model_name model_type ;;
  let '(_, message) := r in
  ret message.

(** [generate_image_interface(prompt, negative_prompt, steps, guidance,
    width, height, seed)], on the module-level generator object *)
Definition generate_image_interface (w : World)
           (prompt negative_prompt : string) (steps : Z) (guidance : Q)
           (width height : Z) (seed : Z)
  : M Self (option Image * string) :=
  r <- generate_image w prompt negative_prompt steps guidance width height
                      seed ;;
  let '(image, info) := r in
  ret (image, info).

(** The sliders of the form: [minimum], [maximum] and [step] of each. *)
Record Slider : Type := mkSlider {
  minimum : Q; maximum : Q; slider_step : Q }.

Definition steps_slider : Slider := mkSlider (10#1) (100#1) (1#1).
Definition guidance_slider : Slider := mkSlider (1#1) (20#1) (1#2).
Definition width_slider : Slider := mkSlider (256#1) (1024#1) (64#1).
Definition height_slider : Slider := mkSlider (256#1) (1024#1) (64#1).

End StableDiffusionGenerator.

(** ** minified_app.py *)

Module MinifiedStableDiffusionGenerator.

Record Self : Type := mkSelf {
  checkpoints_dir : string;
  device : Device;
  pipeline : Attr (option Pipeline);
  current_checkpoint : option string
}.

(** [__init__(self, checkpoints_dir, device)], the attributes it binds (it
    also prints two lines about the device). *)
Definition __init__ (w : World) (checkpoints_dir : string) (device : Device)
  : Self :=
  mkSelf checkpoints_dir (if cuda_is_available w then device else cpu)
         (Bound None) None.

Definition default_checkpoints_dir : string := "./checkpoints".

(** [print(line)] *)
Definition print (line : string) : M Self unit :=
  extern_proc (EvPrint line) None.

(** [self.pipeline], read *)
Definition self_pipeline : M Self (option Pipeline) :=
  self <- get_self ;;
  match pipeline self with
  | Bound v => ret v
  | Deleted =>
      raise (AttributeError "MinifiedStableDiffusionGenerator" "pipeline")
  end.

(** [self.pipeline.attr]: the pipeline object an attribute is taken from *)
Definition self_pipeline_object (attr : string) : M Self Pipeline :=
  v <- self_pipeline ;;
  match v with
  | Some p => ret p
  | None => raise (AttributeError "NoneType" attr)
  end.

(** [self.pipeline = v] *)
Definition set_self_pipeline (v : option Pipeline) : M Self unit :=
  self <- get_self ;;
  put_self (mkSelf (checkpoints_dir self) (device self) (Bound v)
                   (current_checkpoint self)).

(** [del self.pipeline] *)
Definition del_self_pipeline : M Self unit :=
  self <- get_self ;;
  match pipeline self with
  | Bound _ =>
      put_self (mkSelf (checkpoints_dir self) (device self) Deleted
                       (current_checkpoint self))
  | Deleted =>
      raise (AttributeError "MinifiedStableDiffusionGenerator" "pipeline")
  end.

(** [self.current_checkpoint = v] *)
Definition set_self_current_checkpoint (v : option string) : M Self unit :=
  self <- get_self ;;
  put_self (mkSelf (checkpoints_dir self) (device self) (pipeline self) v).

Definition single_file_kwargs : SingleFileKwargs :=
  mkSingleFileKwargs "float16" true false false.

(** [load_checkpoint(self, checkpoint_filename)] *)
Definition load_checkpoint (w : World) (checkpoint_filename : string)
  : M Self (option Pipeline * string) :=
  try_except
    (self <- get_self ;;
     let checkpoint_path :=
       joinpath w (checkpoints_dir self) checkpoint_filename in
     if negb (path_exists w checkpoint_path) then
       ret (None, "Checkpoint not found at " ++ checkpoint_path)
     else
       (* Clear previous model from memory *)
       (old <- self_pipeline ;;
        match old with
        | Some _ =>
            del_self_pipeline ;;
            extern_proc EvEmptyCache (empty_cache w)
        | None => ret tt
        end) ;;
       print ("🔄 Loading checkpoint: " ++ checkpoint_filename) ;;
       (* Load from single file using diffusers *)
       (native <- extern (EvFromSingleFile checkpoint_path single_file_kwargs)
                         (from_single_file w checkpoint_path
                                           single_file_kwargs) ;;
        set_self_pipeline
          (Some (fresh_pipeline StableDiffusionPipeline checkpoint_path
                                native))) ;;
       (* Use DPM++ 2M Karras scheduler for better quality *)
       (p <- self_pipeline_object "scheduler" ;;
        refined <- DPMSolverMultistepScheduler_from_config
                     w (scheduler_config (scheduler p)) true
                     (Some "dpmsolver++") ;;
        p <- self_pipeline_object "scheduler" ;;
        set_self_pipeline (Some (set_scheduler p refined))) ;;
       (* Enable memory optimizations *)
       (p <- self_pipeline_object "enable_attention_slicing" ;;
        extern_proc (EvEnableAttentionSlicing p)
                    (enable_attention_slicing w p) ;;
        set_self_pipeline (Some (set_attention_slicing p))) ;;
       (p <- self_pipeline_object "enable_vae_slicing" ;;
        extern_proc (EvEnableVaeSlicing p) (enable_vae_slicing w p) ;;
        set_self_pipeline (Some (set_vae_slicing p))) ;;
       (* Enable memory efficient attention if available *)
       try_except
         (p <- self_pipeline_object
                 "enable_xformers_memory_efficient_attention" ;;
          extern_proc (EvEnableXformers p)
                      (enable_xformers_memory_efficient_attention w p) ;;
          set_self_pipeline (Some (set_xformers p)) ;;
          print "✅ XFormers memory efficient attention enabled")
         (fun _ =>
            print "⚠️  XFormers not available, using default attention") ;;
       (* Move to device *)
       (p <- self_pipeline_object "to" ;;
        self <- get_self ;;
        extern_proc (EvTo p (device self)) (to_device w p (device self)) ;;
        set_self_pipeline (Some (set_device p (device self)))) ;;
       set_self_current_checkpoint (Some checkpoint_filename) ;;
       handle <- self_pipeline ;;
       ret (handle, "✅ Successfully loaded " ++ checkpoint_filename))
    (fun e => ret (None, "❌ Error loading checkpoint: " ++ str_exn e)).

(** [negative_prompt if negative_prompt else None] *)
Definition negative_prompt_or_None (negative_prompt : string)
  : option string :=
  match negative_prompt with
  | EmptyString => None
  | _ => Some negative_prompt
  end.

(** How an f-string renders [self.current_checkpoint]. *)
Definition str_checkpoint (v : option string) : string :=
  match v with
  | Some name => name
  | None => "None"
  end.

Definition newline : string := String "010"%char EmptyString.

(** [generate_image(self, prompt, negative_prompt, num_inference_steps,
    guidance_scale, width, height, seed)] *)
Definition generate_image (w : World) (prompt negative_prompt : string)
           (num_inference_steps : Z) (guidance_scale : Q) (width height : Z)
           (seed : Z)
  : M Self (option Image * string) :=
  current <- self_pipeline ;;
  match current with
  | None => ret (None, "Please load a checkpoint first")
  | Some _ =>
      try_except
        ((* Set random seed for reproducibility *)
         seed <- (if Z.eqb seed (-1)
                  then torch_randint w 0 (2 ^ 32 - 1)
                  else ret seed) ;;
         self <- get_self ;;
         generator <- Generator_manual_seed w (device self) seed ;;
         (* Generate image *)
         p <- self_pipeline_object "__call__" ;;
         let args :=
           mkPipelineArgs prompt (negative_prompt_or_None negative_prompt)
                          num_inference_steps guidance_scale width height
                          generator in
         images <- extern (EvPipelineCall p args) (call_pipeline w p args) ;;
         image <- first_image images ;;
         self <- get_self ;;
         let info := "Generated with seed: " ++ str_int seed ++ newline ++
                     "Checkpoint: " ++
                     str_checkpoint (current_checkpoint self) in
         ret (Some image, info))
        (fun e => ret (None, "❌ Error generating image: " ++ str_exn e))
  end.

(** [load_checkpoint_interface(checkpoint_name)] *)
Definition load_checkpoint_interface (w : World) (checkpoint_name : string)
  : M Self string :=
  r <- load_checkpoint w checkpoint_name ;;
  let '(_, message) := r in
  ret message.

(** [generate_image_interface(prompt, negative_prompt, steps, guidance,
    width, height, seed)] *)
Definition generate_image_interface (w : World)
           (prompt negative_prompt : string) (steps : Z) (guidance : Q)
           (width height : Z) (seed : Z)
  : M Self (option Image * string) :=
  r <- generate_image w prompt negative_prompt steps guidance width height
                      seed ;;
  let '(image, info) := r in
  ret (image, info).

End MinifiedStableDiffusionGenerator.

(** ** The caller-facing surface of app.py *)

Module Surface.
Import StableDiffusionGenerator.

(** The two operations the form triggers, with their inputs. *)
Inductive Request : Type :=
| LoadModel (model_name model_type : string)
| GenerateImage (prompt negative_prompt : string) (steps : Z) (guidance : Q)
                (width height : Z) (seed : Z).

Inductive Response : Type :=
| Status (message : string)
| Generated (image : option Image) (info : string).

(** One click: the interface function runs on the module-level generator. *)
Definition serve (w : World) (rq : Request) : M Self Response :=
  match rq with
  | LoadModel model_name model_type =>
      message <- load_model_interface w model_name model_type ;;
      ret (Status message)
  | GenerateImage prompt negative_prompt steps guidance width height seed =>
      r <- generate_image_interface w prompt negative_prompt steps guidance
                                    width height seed ;;
      ret (Generated (fst r) (snd r))
  end.

(** A sequence of clicks, each in the world it happens in.  A click that
    raises leaves the generator as it was at the raise; the next click runs
    on that object. *)
Fixpoint session (clicks : list (World * Request)) (self : Self)
  : list (Outcome Response) * Self :=
  match clicks with
  | [] => ([], self)
  | (w, rq) :: rest =>
      let r := serve w rq self in
      let '(answers, final) := session rest (state_after r) in
      (outcome r :: answers, final)
  end.

End Surface.

(** ** Reading an event log *)

(** The seeds handed to [manual_seed]. *)
Fixpoint seeds_of (l : list Event) : list Z :=
  match l with
  | [] => []
  | EvManualSeed _ seed :: rest => seed :: seeds_of rest
  | _ :: rest => seeds_of rest
  end.

(** The pipeline calls, each with the pipeline called and its arguments. *)
Fixpoint pipeline_calls (l : list Event) : list (Pipeline * PipelineArgs) :=
  match l with
  | [] => []
  | EvPipelineCall p args :: rest => (p, args) :: pipeline_calls rest
  | _ :: rest => pipeline_calls rest
  end.

(** The number of draws from [torch.randint]. *)
Fixpoint randint_draws (l : list Event) : nat :=
  match l with
  | [] => O
  | EvRandint _ _ :: rest => Datatypes.S (randint_draws rest)
  | _ :: rest => randint_draws rest
  end.

(** [needle] occurs in [text]. *)
Definition includes (needle text : string) : Prop :=
  exists before after, text = before ++ needle ++ after.

(** ** The engine during one [generate_image] *)

(** The seed after lines 78-79 of app.py (88-90 of minified_app.py): the
    draw of [torch.randint(0, 2**32 - 1, (1,))] for the sentinel, the
    argument otherwise. *)
Definition resolved_seed (w : World) (seed : Z) : Z :=
  if Z.eqb seed (-1) then 0 + randint_raw w mod (2 ^ 32 - 1 - 0) else seed.

(** The engine raises [e] in a [generate_image] on pipeline [p] and device
    [d] whose resolved seed is [seed]: when the seeded generator is built, or
    in the pipeline call. *)
Definition engine_raises (w : World) (d : Device) (p : Pipeline)
           (prompt : string) (negative_prompt : option string)
           (steps : Z) (guidance : Q) (width height : Z) (seed : Z)
           (e : Exn) : Prop :=
  manual_seed w d seed = Some e \/
  (manual_seed w d seed = None /\
   call_pipeline w p
     (mkPipelineArgs prompt negative_prompt steps guidance width height
                     (mkGenerator d seed)) = Raises e).

(** ** Bounds of the form *)

(** A slider admits [x] when [x] lies between its ends, a whole number of
    steps above the minimum. *)
Definition slider_admits (sl : StableDiffusionGenerator.Slider) (x : Q)
  : bool :=
  Qle_bool (StableDiffusionGenerator.minimum sl) x &&
  Qle_bool x (StableDiffusionGenerator.maximum sl) &&
  Pos.eqb (Qden (Qred ((x - StableDiffusionGenerator.minimum sl) /
                       StableDiffusionGenerator.slider_step sl))) 1.

(** The bounds of the four sliders of app.py, on the arguments of a pipeline
    call. *)
Definition within_slider_bounds (a : PipelineArgs) : bool :=
  slider_admits StableDiffusionGenerator.steps_slider
                (inject_Z (arg_num_inference_steps a)) &&
  slider_admits StableDiffusionGenerator.guidance_slider
                (arg_guidance_scale a) &&
  slider_admits StableDiffusionGenerator.width_slider
                (inject_Z (arg_width a)) &&
  slider_admits StableDiffusionGenerator.height_slider
                (inject_Z (arg_height a)).

(** ** The handle of app.py *)

(** The sampler is the Karras multistep solver, both slicing flags are set
    and the pipeline is on the device of the generator. *)
Definition fully_initialized (self : StableDiffusionGenerator.Self)
           (p : Pipeline) : bool :=
  match scheduler p with
  | DPMSolverMultistepScheduler _ true _ => true
  | _ => false
  end &&
  attention_slicing p && vae_slicing p &&
  Device_eqb (pipe_device p) (StableDiffusionGenerator.device self).

(** Either no pipeline is held, or the one held is fully initialised and its
    identifier is recorded. *)
Definition handle_invariant (self : StableDiffusionGenerator.Self) : bool :=
  match StableDiffusionGenerator.pipeline self with
  | Deleted => true
  | Bound None => true
  | Bound (Some p) =>
      fully_initialized self p &&
      match StableDiffusionGenerator.current_model self with
      | Some _ => true
      | None => false
      end
  end.

Definition is_loaded (self : StableDiffusionGenerator.Self) : bool :=
  match StableDiffusionGenerator.pipeline self with
  | Bound (Some _) => true
  | _ => false
  end.

(** ** Worlds and inputs for the examples *)

Definition out_of_memory : Exn :=
  mkExn "OutOfMemoryError" "CUDA out of memory".

(** [str(Path(base) / name)] for a relative directory such as ["./models"]
    and a plain file name: pathlib drops the leading ["./"]. *)
Definition pathlib_join (base name : string) : string :=
  match base with
  | String "."%char (String "/"%char rest) => rest
  | _ => base
  end ++ "/" ++ name.

(** Everything exists and every library call returns. *)
Definition calm : World :=
  mkWorld true pathlib_join (fun _ => true)
          (fun _ _ _ => Returns [("_class_name", "PNDMScheduler")])
          (fun _ _ => Returns [("_class_name", "PNDMScheduler")])
          (fun _ _ _ => None) (fun _ => None) (fun _ => None)
          (fun _ => None) (fun _ _ => None) None 123456789
          (fun _ _ => None) (fun _ _ => Returns [PILImage 1]).

(** As [calm], but no path exists. *)
Definition nothing_on_disk : World :=
  mkWorld true (joinpath calm) (fun _ => false)
          (from_pretrained calm) (from_single_file calm) (from_config calm)
          (enable_attention_slicing calm) (enable_vae_slicing calm)
          (enable_xformers_memory_efficient_attention calm)
          (to_device calm) None 123456789 (manual_seed calm)
          (call_pipeline calm).

(** As [calm], but building the pipeline runs out of memory. *)
Definition construction_fails : World :=
  mkWorld true (joinpath calm) (fun _ => true)
          (fun _ _ _ => Raises out_of_memory)
          (fun _ _ => Raises out_of_memory) (from_config calm)
          (enable_attention_slicing calm) (enable_vae_slicing calm)
          (enable_xformers_memory_efficient_attention calm)
          (to_device calm) None 123456789 (manual_seed calm)
          (call_pipeline calm).

(** As [calm], but the move to the device runs out of memory. *)
Definition placement_fails : World :=
  mkWorld true (joinpath calm) (fun _ => true)
          (from_pretrained calm) (from_single_file calm) (from_config calm)
          (enable_attention_slicing calm) (enable_vae_slicing calm)
          (enable_xformers_memory_efficient_attention calm)
          (fun _ _ => Some out_of_memory) None 123456789 (manual_seed calm)
          (call_pipeline calm).

(** As [calm], but the pipeline call runs out of memory. *)
Definition engine_fails : World :=
  mkWorld true (joinpath calm) (fun _ => true)
          (from_pretrained calm) (from_single_file calm) (from_config calm)
          (enable_attention_slicing calm) (enable_vae_slicing calm)
          (enable_xformers_memory_efficient_attention calm)
          (to_device calm) None 123456789 (manual_seed calm)
          (fun _ _ => Raises out_of_memory).

(** The module-level generator of app.py, and the same after a load of
    ["sd15"] in the calm world. *)
Definition fresh_generator : StableDiffusionGenerator.Self :=
  StableDiffusionGenerator.__init__
    calm StableDiffusionGenerator.default_model_path cuda.

Definition loaded_generator : StableDiffusionGenerator.Self :=
  state_after
    (StableDiffusionGenerator.load_model calm "sd15" "SD1.5" fresh_generator).

Definition sd15_pipeline : Pipeline :=
  mkPipeline StableDiffusionPipeline "models/sd15"
             (DPMSolverMultistepScheduler
                [("_class_name", "PNDMScheduler")] true None)
             true true false cuda.

(** The same for minified_app.py. *)
Definition fresh_minified : MinifiedStableDiffusionGenerator.Self :=
  MinifiedStableDiffusionGenerator.__init__
    calm MinifiedStableDiffusionGenerator.default_checkpoints_dir cuda.

Definition loaded_minified : MinifiedStableDiffusionGenerator.Self :=
  state_after
    (MinifiedStableDiffusionGenerator.load_checkpoint
       calm "sd15.safetensors" fresh_minified).

Definition sd15_checkpoint_pipeline : Pipeline :=
  mkPipeline StableDiffusionPipeline "checkpoints/sd15.safetensors"
             (DPMSolverMultistepScheduler
                [("_class_name", "PNDMScheduler")] true
                (Some "dpmsolver++"))
             true true true cuda.

(** ** Listing what can be loaded (app.py 103-116 and 147,
    minified_app.py 114-127 and 168) *)

(** One entry of a directory: its name and whether it is a directory. *)
Record DirEntry : Type := mkDirEntry {
  entry_name : string;
  entry_is_dir : bool
}.

(** What the file system answers when a directory is listed: whether the
    path exists, and its entries in the order the system yields them, or the
    exception [iterdir] raises (the path is a file, or may not be read). *)
Record Disk : Type := mkDisk {
  disk_exists : string -> bool;
  disk_iterdir : string -> Outcome (list DirEntry)
}.

(** [s.endswith(suffix)] *)
Definition endswith (s suffix : string) : bool :=
  let n := String.length s in
  let m := String.length suffix in
  (m <=? n)%nat && String.eqb (substring (n - m) m s) suffix.

(** [path.glob("*.safetensors")], the names of the matches: the entries
    whose name ends in [".safetensors"], in listing order; a path that cannot
    be listed has no match ([glob] does not raise). *)
Definition glob_safetensors (d : Disk) (path : string) : list string :=
  match disk_iterdir d path with
  | Returns entries =>
      filter (fun name => endswith name ".safetensors")
             (map entry_name entries)
  | Raises _ => []
  end.

(** [sorted(l)] on strings: ascending by code point, which is the order of
    the bytes of the strings. *)
Fixpoint insert_sorted (x : string) (l : list string) : list string :=
  match l with
  | [] => [x]
  | y :: rest =>
      if String.leb x y then x :: l else y :: insert_sorted x rest
  end.

Definition sorted (l : list string) : list string :=
  fold_right insert_sorted [] l.

(** The order [sorted] sorts by. *)
Definition string_le (a b : string) : Prop := String.leb a b = true.

Module AppListing.

(** [get_available_models(self)] *)
Definition get_available_models (d : Disk)
           (self : StableDiffusionGenerator.Self) : Outcome (list string) :=
  if negb (disk_exists d (StableDiffusionGenerator.model_path self)) then
    Returns []
  else
    match disk_iterdir d (StableDiffusionGenerator.model_path self) with
    | Raises e => Raises e
    | Returns entries =>
        let models := map entry_name (filter entry_is_dir entries) in
        Returns (match models with
                 | [] => ["No models found"]
                 | _ :: _ => models
                 end)
    end.

(** The [value] of [model_dropdown]:
    [available_models[0] if available_models and
     available_models[0] != "No models found" else None] *)
Definition model_dropdown_value (available_models : list string)
  : option string :=
  match available_models with
  | first :: _ =>
      if negb (String.eqb first "No models found") then Some first else None
  | [] => None
  end.

End AppListing.

Module MinifiedListing.

(** [get_available_checkpoints(self)] *)
Definition get_available_checkpoints (d : Disk)
           (self : MinifiedStableDiffusionGenerator.Self) : list string :=
  if negb (disk_exists d (MinifiedStableDiffusionGenerator.checkpoints_dir
                            self)) then
    []
  else
    let checkpoints :=
      glob_safetensors d (MinifiedStableDiffusionGenerator.checkpoints_dir
                            self) in
    match checkpoints with
    | [] => ["No checkpoints found"]
    | _ :: _ => sorted checkpoints
    end.

(** The [value] of [checkpoint_dropdown]. *)
Definition checkpoint_dropdown_value (available_checkpoints : list string)
  : option string :=
  match available_checkpoints with
  | first :: _ =>
      if negb (String.eqb first "No checkpoints found")
      then Some first else None
  | [] => None
  end.

(** [refresh_checkpoints()]: the choices of the updated dropdown. *)
Definition refresh_checkpoints (d : Disk)
           (generator : MinifiedStableDiffusionGenerator.Self)
  : list string :=
  get_available_checkpoints d generator.

End MinifiedListing.

(** ** The download scripts: what they do to the console, the disk and the
    network *)

Inductive Action : Type :=
| ActPrint (line : string)
| ActInput (prompt : string)
| ActMkdir (path : string)
| ActSnapshotDownload (repo_id local_dir : string)
    (local_dir_use_symlinks : bool) (token : option string)
    (ignore_patterns : list string)
| ActHfHubDownload (repo_id filename : string) (token : option string)
    (local_dir : string) (local_dir_use_symlinks : bool)
| ActRename (source target : string)
| ActStat (path : string)
| ActPrintHelp.

(** What the machine answers to one run of a script.  Paths are held as the
    text [str] gives: [host_path dir] is [str(Path(dir))] and
    [host_joinpath p name] is [str(p / name)]; [host_basename p] is
    [Path(p).name]; [host_exists] is the disk as the run finds it.
    [host_size_gb] is the text of
    [local_path.stat().st_size / (1024**3)] under the format [.2f], or the
    exception [stat] raises. *)
Record Host : Type := mkHost {
  host_path : string -> string;
  host_joinpath : string -> string -> string;
  host_basename : string -> string;
  host_exists : string -> bool;
  host_mkdir : string -> option Exn;
  host_snapshot_download : string -> string -> option string -> option Exn;
  host_hf_hub_download : string -> string -> option string -> string ->
                         Outcome string;
  host_rename : string -> string -> option Exn;
  host_size_gb : string -> Outcome string
}.

(** A script step: it consumes lines of standard input and logs actions. *)
Definition Script (A : Type) : Type :=
  list string -> Outcome A * list string * list Action.

Definition sret {A} (a : A) : Script A := fun stdin => (Returns a, stdin, []).

Definition sbind {A B} (m : Script A) (k : A -> Script B) : Script B :=
  fun stdin =>
    match m stdin with
    | (Returns a, rest, l1) =>
        match k a rest with
        | (r, rest', l2) => (r, rest', (l1 ++ l2)%list)
        end
    | (Raises e, rest, l1) => (Raises e, rest, l1)
    end.

(** [try: body  except Exception as e: handler(e)] *)
Definition stry {A} (body : Script A) (handler : Exn -> Script A)
  : Script A :=
  fun stdin =>
    match body stdin with
    | (Returns a, rest, l1) => (Returns a, rest, l1)
    | (Raises e, rest, l1) =>
        match handler e rest with
        | (r, rest', l2) => (r, rest', (l1 ++ l2)%list)
        end
    end.

(** A call that returns a value or raises. *)
Definition act {A} (a : Action) (answer : Outcome A) : Script A :=
  fun stdin => (answer, stdin, [a]).

(** A call that returns nothing or raises. *)
Definition act_proc (a : Action) (answer : option Exn) : Script unit :=
  act a (match answer with None => Returns tt | Some e => Raises e end).

Declare Scope script_scope.
Delimit Scope script_scope with script.
Notation "x <- c ;; k" := (sbind c (fun x => k))
  (at level 61, c at next level, right associativity) : script_scope.
Notation "c ;; k" := (sbind c (fun _ => k))
  (at level 61, right associativity) : script_scope.

(** [print(line)] *)
Definition print (line : string) : Script unit :=
  act_proc (ActPrint line) None.

(** [input(prompt)]: the next line of standard input, [EOFError] at its
    end. *)
Definition input (prompt : string) : Script string :=
  fun stdin =>
    match stdin with
    | [] => (Raises (mkExn "EOFError" "EOF when reading a line"), [],
             [ActInput prompt])
    | line :: rest => (Returns line, rest, [ActInput prompt])
    end.

(** [for x in xs: body(x)] *)
Fixpoint for_each {A} (xs : list A) (body : A -> Script unit)
  : Script unit :=
  match xs with
  | [] => sret tt
  | x :: rest => sbind (body x) (fun _ => for_each rest body)
  end.

Definition actions {A} (r : Outcome A * list string * list Action)
  : list Action := snd r.
Definition answer {A} (r : Outcome A * list string * list Action)
  : Outcome A := fst (fst r).

(** *** str methods and formats the scripts use *)

Definition LF : string := String "010"%char EmptyString.

(** [s.split(sep)] for a one-character separator: never empty. *)
Fixpoint split (sep : ascii) (s : string) : list string :=
  match s with
  | EmptyString => [EmptyString]
  | String c rest =>
      if Ascii.eqb c sep then EmptyString :: split sep rest
      else match split sep rest with
           | piece :: pieces => String c piece :: pieces
           | [] => [String c EmptyString]
           end
  end.

(** [c in s] for a character. *)
Fixpoint contains_char (c : ascii) (s : string) : bool :=
  match s with
  | EmptyString => false
  | String x rest => Ascii.eqb x c || contains_char c rest
  end.

(** [l[-1]] of a list that is not empty. *)
Definition last_piece (l : list string) : string := last l EmptyString.

(** [s.lower()] on the letters A to Z; every other byte is kept. *)
Definition lower_char (c : ascii) : ascii :=
  let n := nat_of_ascii c in
  if (65 <=? n)%nat && (n <=? 90)%nat then ascii_of_nat (n + 32) else c.

Fixpoint lower (s : string) : string :=
  match s with
  | EmptyString => EmptyString
  | String c rest => String (lower_char c) (lower rest)
  end.

(** [s * n] *)
Fixpoint repeat_string (s : string) (n : nat) : string :=
  match n with
  | O => EmptyString
  | Datatypes.S k => s ++ repeat_string s k
  end.

(** The format [{s:<width>s}]: [s] padded with spaces on the right up to
    [width] characters, never cut. *)
Definition ljust (width : nat) (s : string) : string :=
  s ++ repeat_string " " (width - String.length s).

(** [d.get(key)] on a dict held in insertion order. *)
Fixpoint dict_get {V} (d : list (string * V)) (key : string) : option V :=
  match d with
  | [] => None
  | (k, v) :: rest => if String.eqb k key then Some v else dict_get rest key
  end.

(** [d.keys()] *)
Definition dict_keys {V} (d : list (string * V)) : list string :=
  map fst d.

(** [str(l)] for a list of strings without quotes or escapes in them. *)
Definition repr_list (l : list string) : string :=
  "[" ++ String.concat ", " (map (fun s => "'" ++ s ++ "'") l) ++ "]".

(** The five lines both scripts print after a failed download. *)
Definition authentication_help : list string :=
  [LF ++ "If the model requires authentication, you may need to:";
   "1. Create a HuggingFace account";
   "2. Accept the model's license on HuggingFace";
   "3. Generate an access token from https://huggingface.co/settings/tokens";
   "4. Run this script with --token YOUR_TOKEN"].

(** *** download_models.py *)

Module DownloadModels.
Local Open Scope script_scope.

Record ModelInfo : Type := mkModelInfo {
  repo_id : string;
  name : string;
  type : string
}.

Definition MODELS : list (string * ModelInfo) :=
  [("sd15", mkModelInfo "runwayml/stable-diffusion-v1-5"
                        "stable-diffusion-v1-5" "SD1.5");
   ("sd21", mkModelInfo "stabilityai/stable-diffusion-2-1"
                        "stable-diffusion-2-1" "SD2.1");
   ("sdxl", mkModelInfo "stabilityai/stable-diffusion-xl-base-1.0"
                        "stable-diffusion-xl-base-1.0" "SDXL");
   ("dreamshaper", mkModelInfo "Lykon/DreamShaper" "dreamshaper" "SD1.5");
   ("realistic-vision", mkModelInfo "SG161222/Realistic_Vision_V5.1_noVAE"
                                    "realistic-vision-v5" "SD1.5")].

Definition ignore_patterns : list string := ["*.msgpack"; "*.h5"; "*.ot"].

(** [download_model(model_key, models_dir, token)] *)
Definition download_model (h : Host) (model_key models_dir : string)
           (token : option string) : Script unit :=
  let models_path := host_path h models_dir in
  act_proc (ActMkdir models_path) (host_mkdir h models_path) ;;
  (* Check if it's a predefined model or custom repo_id *)
  target <-
    match dict_get MODELS model_key with
    | Some model_info =>
        let repo_id := repo_id model_info in
        let local_dir := host_joinpath h models_path (name model_info) in
        print (LF ++ "📦 Downloading " ++ name model_info ++ " (" ++
               type model_info ++ ")...") ;;
        sret (repo_id, local_dir)
    | None =>
        (* Assume it's a custom repo_id *)
        let repo_id := model_key in
        let model_name := last_piece (split "/" repo_id) in
        let local_dir := host_joinpath h models_path model_name in
        print (LF ++ "📦 Downloading " ++ model_name ++ " from " ++
               repo_id ++ "...") ;;
        sret (repo_id, local_dir)
    end ;;
  let '(repo_id, local_dir) := target in
  let attempt : Script unit :=
    stry
      (print ("Downloading to: " ++ local_dir) ;;
       print
         "This may take a while depending on your internet connection..." ;;
       act_proc (ActSnapshotDownload repo_id local_dir false token
                                     ignore_patterns)
                (host_snapshot_download h repo_id local_dir token) ;;
       print ("✅ Successfully downloaded to " ++ local_dir))
      (fun e =>
         print ("❌ Error downloading model: " ++ str_exn e) ;;
         for_each authentication_help print) in
  if host_exists h local_dir then
    print ("⚠️  Model already exists at " ++ local_dir) ;;
    response <- input "Do you want to re-download? (y/n): " ;;
    if negb (String.eqb (lower response) "y") then
      print "Skipping download."
    else attempt
  else attempt.

(** [list_models()] *)
Definition list_models : Script unit :=
  print (LF ++ "📋 Available predefined models:") ;;
  print (repeat_string "-" 60) ;;
  for_each MODELS
    (fun item =>
       let '(key, info) := item in
       print ("  " ++ ljust 20 key ++ " - " ++ ljust 35 (name info) ++
              " (" ++ type info ++ ")")) ;;
  print (repeat_string "-" 60) ;;
  print (LF ++ "You can also use any HuggingFace repo_id directly").

(** The namespace [parse_args] returns. *)
Record Args : Type := mkArgs {
  args_model : option string;
  args_list : bool;
  args_token : option string;
  args_models_dir : string;
  args_all : bool
}.

(** [main()], from [args = parser.parse_args()] on. *)
Definition main (h : Host) (args : Args) : Script unit :=
  if args_list args then list_models
  else if args_all args then
    print "🚀 Downloading all predefined models..." ;;
    for_each (dict_keys MODELS)
      (fun model_key =>
         download_model h model_key (args_models_dir args)
                        (args_token args)) ;;
    print (LF ++ "✨ All downloads completed!")
  else
    match args_model args with
    | None | Some EmptyString =>
        print "❌ Please specify a model to download" ;;
        act_proc ActPrintHelp None ;;
        print "" ;;
        list_models
    | Some model =>
        download_model h model (args_models_dir args) (args_token args)
    end.

End DownloadModels.

(** *** minified_download.py *)

Module MinifiedDownload.
Local Open Scope script_scope.

Record CheckpointInfo : Type := mkCheckpointInfo {
  repo_id : string;
  filename : string;
  name : string;
  type : string
}.

Definition CHECKPOINT_MODELS : list (string * CheckpointInfo) :=
  [("sd15", mkCheckpointInfo "runwayml/stable-diffusion-v1-5"
              "v1-5-pruned-emaonly.safetensors"
              "sd15-v1-5-pruned-emaonly.safetensors" "SD1.5");
   ("sd15-full", mkCheckpointInfo "runwayml/stable-diffusion-v1-5"
              "v1-5-pruned.safetensors"
              "sd15-v1-5-pruned.safetensors" "SD1.5");
   ("dreamshaper", mkCheckpointInfo "Lykon/DreamShaper"
              "dreamshaper_8.safetensors"
              "dreamshaper_8.safetensors" "SD1.5");
   ("realistic-vision", mkCheckpointInfo
              "SG161222/Realistic_Vision_V5.1_noVAE"
              "Realistic_Vision_V5.1_noVAE.safetensors"
              "realistic_vision_v5.1.safetensors" "SD1.5");
   ("anything-v4", mkCheckpointInfo "andite/anything-v4.0"
              "anything-v4.5-pruned.safetensors"
              "anything-v4.5.safetensors" "SD1.5")].

(** [download_checkpoint(model_key, checkpoints_dir, token)] *)
Definition download_checkpoint (h : Host)
           (model_key checkpoints_dir : string) (token : option string)
  : Script unit :=
  let checkpoints_path := host_path h checkpoints_dir in
  act_proc (ActMkdir checkpoints_path) (host_mkdir h checkpoints_path) ;;
  match dict_get CHECKPOINT_MODELS model_key with
  | None =>
      print ("❌ Unknown model key: " ++ model_key) ;;
      print ("Available models: " ++
             repr_list (dict_keys CHECKPOINT_MODELS))
  | Some model_info =>
      let repo_id := repo_id model_info in
      let filename := filename model_info in
      let local_filename := name model_info in
      let model_type := type model_info in
      let local_path := host_joinpath h checkpoints_path local_filename in
      print (LF ++ "📦 Downloading " ++ local_filename ++ " (" ++
             model_type ++ ")...") ;;
      print ("From: " ++ repo_id) ;;
      print ("File: " ++ filename) ;;
      let attempt : Script unit :=
        stry
          (print ("Downloading to: " ++ local_path) ;;
           print
             "This may take a while depending on your internet connection..."
           ;;
           (* Download single file *)
           downloaded_path <-
             act (ActHfHubDownload repo_id filename token checkpoints_path
                                   false)
                 (host_hf_hub_download h repo_id filename token
                                       checkpoints_path) ;;
           (* Rename to our preferred naming convention if needed *)
           (if negb (String.eqb (host_basename h downloaded_path)
                                local_filename)
            then act_proc (ActRename downloaded_path local_path)
                          (host_rename h downloaded_path local_path)
            else sret tt) ;;
           print ("✅ Successfully downloaded " ++ local_filename) ;;
           size <- act (ActStat local_path) (host_size_gb h local_path) ;;
           print ("   File size: " ++ size ++ " GB"))
          (fun e =>
             print ("❌ Error downloading checkpoint: " ++ str_exn e) ;;
             for_each authentication_help print) in
      if host_exists h local_path then
        print ("⚠️  Checkpoint already exists at " ++ local_path) ;;
        response <- input "Do you want to re-download? (y/n): " ;;
        if negb (String.eqb (lower response) "y") then
          print "Skipping download."
        else attempt
      else attempt
  end.

(** [list_checkpoints()] *)
Definition list_checkpoints : Script unit :=
  print (LF ++ "📋 Available checkpoint models:") ;;
  print (repeat_string "-" 80) ;;
  for_each CHECKPOINT_MODELS
    (fun item =>
       let '(key, info) := item in
       print ("  " ++ ljust 15 key ++ " - " ++ ljust 40 (name info) ++
              " (" ++ type info ++ ")")) ;;
  print (repeat_string "-" 80) ;;
  print (LF ++ "These are single .safetensors checkpoint files") ;;
  print "Much smaller downloads compared to full model repositories".

End MinifiedDownload.

(** *** Reading an action log *)

(** The directory name [download_model] stores a model under: the name of
    the table for a predefined key, the last piece of the repository id
    otherwise (lines 53-62). *)
Definition model_directory_name (model_key : string) : string :=
  match dict_get DownloadModels.MODELS model_key with
  | Some model_info => DownloadModels.name model_info
  | None => last_piece (split "/" model_key)
  end.

(** [args.list or (not args.all and not args.model)]: the runs of [main]
    that lead to no call of [download_model] (lines 136-152). *)
Definition args_list_or_nothing_to_do (args : DownloadModels.Args) : bool :=
  DownloadModels.args_list args ||
  (negb (DownloadModels.args_all args) &&
   match DownloadModels.args_model args with
   | None | Some EmptyString => true
   | Some _ => false
   end).

(** The downloads a run asked for, in order: repository and target. *)
Fixpoint downloads_of (l : list Action) : list (string * string) :=
  match l with
  | [] => []
  | ActSnapshotDownload repo_id local_dir _ _ _ :: rest =>
      (repo_id, local_dir) :: downloads_of rest
  | ActHfHubDownload repo_id filename _ _ _ :: rest =>
      (repo_id, filename) :: downloads_of rest
  | _ :: rest => downloads_of rest
  end.

(** The lines a run printed, in order. *)
Fixpoint printed (l : list Action) : list string :=
  match l with
  | [] => []
  | ActPrint line :: rest => line :: printed rest
  | _ :: rest => printed rest
  end.

(** The actions other than printing: none of these means the run touched
    neither the disk, nor the network, nor standard input. *)
Definition is_print (a : Action) : bool :=
  match a with
  | ActPrint _ | ActPrintHelp => true
  | _ => false
  end.

(** *** Hosts for the examples *)

(** [str(Path(dir))] for a relative directory such as ["./models"]. *)
Definition pathlib_str (dir : string) : string :=
  match dir with
  | String "."%char (String "/"%char rest) => rest
  | _ => dir
  end.

(** Nothing is on disk yet, and every call works. *)
Definition clean_host : Host :=
  mkHost pathlib_str pathlib_join (fun path => last_piece (split "/" path))
         (fun _ => false) (fun _ => None) (fun _ _ _ => None)
         (fun _ filename _ local_dir =>
            Returns (pathlib_join local_dir filename))
         (fun _ _ => None) (fun _ => Returns "3.97").

(** As [clean_host], but every target is already there. *)
Definition full_host : Host :=
  mkHost pathlib_str pathlib_join (host_basename clean_host) (fun _ => true)
         (fun _ => None) (fun _ _ _ => None)
         (host_hf_hub_download clean_host) (fun _ _ => None)
         (fun _ => Returns "3.97").

(** As [clean_host], but the network is down. *)
Definition offline_host : Host :=
  mkHost pathlib_str pathlib_join (host_basename clean_host)
         (fun _ => false)
         (fun _ => None)
         (fun _ _ _ => Some (mkExn "ConnectionError" "network unreachable"))
         (fun _ _ _ _ =>
            Raises (mkExn "ConnectionError" "network unreachable"))
         (fun _ _ => None) (fun _ => Returns "3.97").

(** A listing: two checkpoints out of order, a text file and a directory. *)
Definition sample_disk : Disk :=
  mkDisk (fun _ => true)
         (fun _ => Returns [mkDirEntry "sd15.safetensors" false;
                            mkDirEntry "notes.txt" false;
                            mkDirEntry "dreamshaper_8.safetensors" false;
                            mkDirEntry "sdxl-base" true]).

(** As [calm], but xformers is not installed. *)
Definition no_xformers : World :=
  mkWorld true (joinpath calm) (fun _ => true)
          (from_pretrained calm) (from_single_file calm) (from_config calm)
          (enable_attention_slicing calm) (enable_vae_slicing calm)
          (fun _ => Some (mkExn "ModuleNotFoundError"
                                "No module named 'xformers'"))
          (to_device calm) None 123456789 (manual_seed calm)
          (call_pipeline calm).

(** As [calm], but the pipeline call returns without images. *)
Definition no_images : World :=
  mkWorld true (joinpath calm) (fun _ => true)
          (from_pretrained calm) (from_single_file calm) (from_config calm)
          (enable_attention_slicing calm) (enable_vae_slicing calm)
          (enable_xformers_memory_efficient_attention calm)
          (to_device calm) None 123456789 (manual_seed calm)
          (fun _ _ => Returns []).

(** ** Loads that build nothing, loads that fail half way *)

(** The answer to the construction call of [load_model] (app.py 29-41):
    [from_pretrained] on the class and the keywords the model type
    selects. *)
Definition constructed (w : World) (self : StableDiffusionGenerator.Self)
           (model_name model_type : string) : Outcome SchedulerConfig :=
  let model_full_path :=
    joinpath w (StableDiffusionGenerator.model_path self) model_name in
  if String.eqb model_type "SDXL" then
    from_pretrained w StableDiffusionXLPipeline model_full_path
                    StableDiffusionGenerator.sdxl_kwargs
  else
    from_pretrained w StableDiffusionPipeline model_full_path
                    StableDiffusionGenerator.sd_kwargs.

(** A load that cannot build a pipeline: the path does not exist, or the
    construction call raises. *)
Definition builds_nothing (w : World) (self : StableDiffusionGenerator.Self)
           (model_name model_type : string) : Prop :=
  path_exists w (joinpath w (StableDiffusionGenerator.model_path self)
                          model_name) = false \/
  exists e, constructed w self model_name model_type = Raises e.

(** The same for [load_checkpoint] (minified_app.py 27-44). *)
Definition checkpoint_builds_nothing (w : World)
           (self : MinifiedStableDiffusionGenerator.Self)
           (checkpoint_filename : string) : Prop :=
  let checkpoint_path :=
    joinpath w (MinifiedStableDiffusionGenerator.checkpoints_dir self)
             checkpoint_filename in
  path_exists w checkpoint_path = false \/
  exists e,
    from_single_file w checkpoint_path
                     MinifiedStableDiffusionGenerator.single_file_kwargs =
    Raises e.

(** A load that fails half way: it called [from_pretrained], got the
    pipeline, and still returned no handle, because a later step raised
    (lines 43-54 of app.py). *)
Definition fails_after_construction (w : World)
           (self : StableDiffusionGenerator.Self)
           (model_name model_type : string) : Prop :=
  let load :=
    StableDiffusionGenerator.load_model w model_name model_type self in
  exists cls path kw native message,
    In (EvFromPretrained cls path kw) (events load) /\
    from_pretrained w cls path kw = Returns native /\
    outcome load = Returns (None, message).

(** The generator after a run of loads, each in the world it happens in. *)
Definition after_loads (loads : list (World * string * string))
           (self : StableDiffusionGenerator.Self)
  : StableDiffusionGenerator.Self :=
  fold_left
    (fun s load =>
       let '(w, model_name, model_type) := load in
       state_after
         (StableDiffusionGenerator.load_model w model_name model_type s))
    loads self.

Definition after_checkpoint_loads (loads : list (World * string))
           (self : MinifiedStableDiffusionGenerator.Self)
  : MinifiedStableDiffusionGenerator.Self :=
  fold_left
    (fun s load =>
       let '(w, checkpoint_filename) := load in
       state_after
         (MinifiedStableDiffusionGenerator.load_checkpoint
            w checkpoint_filename s))
    loads self.


(** ** The order of the solver *)



(** Unfolding a script down to its steps. *)
Ltac unfold_script :=
  unfold DownloadModels.main, DownloadModels.download_model,
         DownloadModels.list_models,
         MinifiedDownload.download_checkpoint,
         MinifiedDownload.list_checkpoints,
         authentication_help, print, input, act_proc, act, stry, sbind,
         sret, actions, answer in *.

(** * Properties *)

Module App := StableDiffusionGenerator.
Module Mini := MinifiedStableDiffusionGenerator.

(** ** Running a method symbolically *)

Ltac unfold_methods :=
  unfold App.generate_image_interface, App.generate_image,
         App.load_model_interface, App.load_model,
         App.self_pipeline_object, App.self_pipeline, App.set_self_pipeline,
         App.del_self_pipeline, App.set_self_current_model,
         Mini.generate_image_interface, Mini.generate_image,
         Mini.load_checkpoint_interface, Mini.load_checkpoint,
         Mini.self_pipeline_object, Mini.self_pipeline,
         Mini.set_self_pipeline, Mini.del_self_pipeline,
         Mini.set_self_current_checkpoint, Mini.print,
         DPMSolverMultistepScheduler_from_config,
         Generator_manual_seed, torch_randint, first_image,
         extern_proc, extern, try_except, bind, ret, raise, get_self,
         put_self, outcome, state_after, events in *.

Ltac atomic x :=
  lazymatch x with
  | context [match _ with _ => _ end] => fail
  | _ => idtac
  end.

(** Split on the innermost thing the run is waiting for: an attribute, a
    test or the answer of the world. *)
Ltac case_step :=
  match goal with
  | H : ?x = _ |- context [match ?x with _ => _ end] => rewrite H
  | |- context [match ?x with _ => _ end] => atomic x; destruct x eqn:?
  end; cbn in *.

Ltac run_method := unfold_methods; cbn in *; repeat case_step.

(** ** The methods and the generator object *)

Lemma generate_image_keeps_self w pr np st g wd h seed s :
  state_after (App.generate_image w pr np st g wd h seed s) = s.
Proof. run_method; reflexivity. Qed.

Lemma load_model_always_returns w name type s :
  exists r, outcome (App.load_model w name type s) = Returns r.
Proof. run_method; eexists; reflexivity. Qed.

Lemma load_checkpoint_always_returns w name s :
  exists r, outcome (Mini.load_checkpoint w name s) = Returns r.
Proof. run_method; eexists; reflexivity. Qed.

Lemma generate_image_returns_when_bound w pr np st g wd h seed s v :
  App.pipeline s = Bound v ->
  exists r, outcome (App.generate_image w pr np st g wd h seed s) = Returns r.
Proof. intros Hp. run_method; try discriminate; eexists; reflexivity. Qed.

Lemma generate_image_raises_when_deleted w pr np st g wd h seed s :
  App.pipeline s = Deleted ->
  App.generate_image w pr np st g wd h seed s =
  (Raises (AttributeError "StableDiffusionGenerator" "pipeline"), s, []).
Proof. intros Hp. run_method; try discriminate; reflexivity. Qed.

Lemma resolved_seed_sentinel w :
  0 <= resolved_seed w (-1) < 2 ^ 32 - 1.
Proof.
  unfold resolved_seed. cbn [Z.eqb Z.opp Pos.eqb].
  pose proof (Z.mod_pos_bound (randint_raw w) (2 ^ 32 - 1 - 0)). lia.
Qed.

Lemma resolved_seed_explicit w seed :
  seed <> -1 -> resolved_seed w seed = seed.
Proof.
  intros H. unfold resolved_seed.
  destruct (Z.eqb_spec seed (-1)); [contradiction | reflexivity].
Qed.

(** What a [generate_image] of app.py does once a pipeline is held. *)
Lemma generate_image_loaded w pr np st g wd h seed s p :
  App.pipeline s = Bound (Some p) ->
  let r := resolved_seed w seed in
  let args := mkPipelineArgs pr (App.negative_prompt_or_None np) st g wd h
                             (mkGenerator (App.device s) r) in
  let run := App.generate_image w pr np st g wd h seed s in
  seeds_of (events run) = [r] /\
  randint_draws (events run) = (if Z.eqb seed (-1) then 1 else 0)%nat /\
  match manual_seed w (App.device s) r with
  | Some e =>
      outcome run = Returns (None, "Error generating image: " ++ str_exn e) /\
      pipeline_calls (events run) = []
  | None =>
      pipeline_calls (events run) = [(p, args)] /\
      match call_pipeline w p args with
      | Raises e =>
          outcome run =
          Returns (None, "Error generating image: " ++ str_exn e)
      | Returns [] =>
          outcome run =
          Returns (None, "Error generating image: " ++ str_exn IndexError)
      | Returns (image :: _) =>
          outcome run =
          Returns (Some image, "Generated with seed: " ++ str_int r)
      end
  end.
Proof.
  intros Hp. unfold resolved_seed.
  run_method; try discriminate; repeat split; try reflexivity; try congruence.
Qed.

(** The same for minified_app.py. *)
Lemma minified_generate_image_loaded w pr np st g wd h seed s p :
  Mini.pipeline s = Bound (Some p) ->
  let r := resolved_seed w seed in
  let args := mkPipelineArgs pr (Mini.negative_prompt_or_None np) st g wd h
                             (mkGenerator (Mini.device s) r) in
  let run := Mini.generate_image w pr np st g wd h seed s in
  seeds_of (events run) = [r] /\
  randint_draws (events run) = (if Z.eqb seed (-1) then 1 else 0)%nat /\
  match manual_seed w (Mini.device s) r with
  | Some e =>
      outcome run =
      Returns (None, "❌ Error generating image: " ++ str_exn e) /\
      pipeline_calls (events run) = []
  | None =>
      pipeline_calls (events run) = [(p, args)] /\
      match call_pipeline w p args with
      | Raises e =>
          outcome run =
          Returns (None, "❌ Error generating image: " ++ str_exn e)
      | Returns [] =>
          outcome run =
          Returns (None, "❌ Error generating image: " ++ str_exn IndexError)
      | Returns (image :: _) =>
          outcome run =
          Returns (Some image,
                   "Generated with seed: " ++ str_int r ++ Mini.newline ++
                   "Checkpoint: " ++
                   Mini.str_checkpoint (Mini.current_checkpoint s))
      end
  end.
Proof.
  intros Hp. unfold resolved_seed.
  run_method; try discriminate; repeat split; try reflexivity; try congruence.
Qed.

Lemma minified_generate_image_keeps_self w pr np st g wd h seed s :
  state_after (Mini.generate_image w pr np st g wd h seed s) = s.
Proof. run_method; reflexivity. Qed.

(** The interface function of app.py answers what the method answers. *)
Lemma generate_image_interface_eq w pr np st g wd h seed s :
  App.generate_image_interface w pr np st g wd h seed s =
  App.generate_image w pr np st g wd h seed s.
Proof.
  run_method; try reflexivity; rewrite ?app_nil_r; reflexivity.
Qed.

Lemma includes_suffix (before needle : string) :
  includes needle (before ++ needle).
Proof.
  exists before, "". 
  assert (E : forall x : string, x ++ "" = x)
    by (induction x as [|c x IH]; cbn; [reflexivity | now rewrite IH]).
  now rewrite E.
Qed.

(** ** C1: what reaches the engine *)

(** C1, counterexample: with a model loaded, a request with 500 steps and
    width 100 reaches the pipeline call with 500 steps and width 100, outside
    the bounds of the sliders. *)
Lemma C1_out_of_bound_values_reach_engine :
  let args := mkPipelineArgs "a cat" None 500 (15 # 2) 100 512
                             (mkGenerator cuda 7) in
  pipeline_calls
    (events (App.generate_image_interface calm "a cat" "" 500 (15 # 2)
                                          100 512 7 loaded_generator))
  = [(sd15_pipeline, args)] /\
  within_slider_bounds args = false /\
  arg_num_inference_steps args = 500 /\ arg_width args = 100.
Proof. vm_compute. repeat split. Qed.

(** C1, amended: with a model loaded, the step count, the guidance scale,
    the width and the height of every pipeline call made by
    [generate_image_interface] are the values the caller supplied, unchanged:
    nothing in the interface function or in [generate_image] clamps or checks
    them; and the pipeline is called whenever the seeded generator could be
    built.  The bounds exist only as the ends of the sliders. *)
Theorem C1_engine_receives_request_verbatim w pr np st g wd h seed s p :
  App.pipeline s = Bound (Some p) ->
  let run := App.generate_image_interface w pr np st g wd h seed s in
  (forall q a, In (q, a) (pipeline_calls (events run)) ->
     q = p /\
     arg_num_inference_steps a = st /\ arg_guidance_scale a = g /\
     arg_width a = wd /\ arg_height a = h) /\
  ((forall x, manual_seed w (App.device s) x = None) ->
   exists a, pipeline_calls (events run) = [(p, a)]).
Proof.
  intros Hp run. subst run. rewrite generate_image_interface_eq.
  destruct (generate_image_loaded w pr np st g wd h seed s p Hp)
    as (_ & _ & Hm).
  destruct (manual_seed w (App.device s) (resolved_seed w seed)) eqn:Hs.
  - destruct Hm as [_ Hc]. rewrite Hc. split.
    + intros q a [].
    + intros Hall. rewrite Hall in Hs. discriminate.
  - destruct Hm as [Hc _]. rewrite Hc. split.
    + intros q a [E | []]. inversion E; subst. cbn. repeat split.
    + intros _. eexists. reflexivity.
Qed.

Lemma C1_engine_receives_request_verbatim_witness :
  App.pipeline loaded_generator = Bound (Some sd15_pipeline) /\
  exists a,
    pipeline_calls
      (events (App.generate_image_interface calm "a cat" "" 500 (15 # 2)
                                            100 512 7 loaded_generator))
    = [(sd15_pipeline, a)].
Proof.
  split; [reflexivity |].
  apply (C1_engine_receives_request_verbatim
           calm "a cat" "" 500 (15 # 2) 100 512 7 loaded_generator
           sd15_pipeline); reflexivity.
Defined.

(** ** C2: every call answers *)

(** A reload whose construction raises leaves the generator without the
    [pipeline] attribute: the old pipeline was deleted and no new one was
    bound. *)
Lemma load_model_failed_reload_deletes w name s p e :
  App.pipeline s = Bound (Some p) ->
  path_exists w (joinpath w (App.model_path s) name) = true ->
  empty_cache w = None ->
  from_pretrained w StableDiffusionPipeline
                  (joinpath w (App.model_path s) name) App.sd_kwargs =
  Raises e ->
  App.load_model w name "SD1.5" s =
  (Returns (None, "Error loading model: " ++ str_exn e),
   App.mkSelf (App.model_path s) (App.device s) Deleted
              (App.current_model s),
   [EvEmptyCache;
    EvFromPretrained StableDiffusionPipeline
                     (joinpath w (App.model_path s) name) App.sd_kwargs]).
Proof.
  intros Hp Hx Hc He. unfold_methods. cbn.
  repeat (progress (rewrite ?Hx, ?Hp, ?Hc, ?He; cbn)). reflexivity.
Qed.

(** Once the attribute is gone, every load of an existing path fails on
    reading it, and the attribute stays gone. *)
Lemma load_model_when_deleted w name type s :
  App.pipeline s = Deleted ->
  path_exists w (joinpath w (App.model_path s) name) = true ->
  App.load_model w name type s =
  (Returns (None,
            "Error loading model: " ++
            str_exn (AttributeError "StableDiffusionGenerator" "pipeline")),
   s, []).
Proof.
  intros Hp Hx. unfold_methods. cbn.
  repeat (progress (rewrite ?Hx, ?Hp; cbn)). reflexivity.
Qed.


(** C2, the failing input evaluated: a load succeeds, a second load deletes
    the [pipeline] attribute and then fails while building the new pipeline,
    and the next generate raises [AttributeError] out of
    [generate_image_interface] instead of returning a message. *)
Theorem C2_generate_raises_after_failed_reload :
  Surface.session
    [(calm, Surface.LoadModel "sd15" "SD1.5");
     (construction_fails, Surface.LoadModel "sd21" "SD2.1");
     (calm, Surface.GenerateImage "a cat" "" 25 (15 # 2) 512 512 (-1))]
    fresh_generator
  = ([Returns (Surface.Status "Successfully loaded sd15");
      Returns (Surface.Status "Error loading model: CUDA out of memory");
      Raises (AttributeError "StableDiffusionGenerator" "pipeline")],
     App.mkSelf "./models" cuda Deleted (Some "sd15")).
Proof. vm_compute. reflexivity. Qed.

(** ** C3: load of a missing artifact *)

(** C3, counterexample: with ["sd15"] loaded, a load of a name that is not on
    disk answers "not found", and afterwards the generator still holds the
    pipeline of ["sd15"]; no memory was released. *)
Lemma C3_missing_artifact_keeps_previous_model :
  let run := App.load_model nothing_on_disk "missing" "SD1.5"
                            loaded_generator in
  outcome run = Returns (None, "Model not found at models/missing") /\
  is_loaded (state_after run) = true /\
  App.pipeline (state_after run) = Bound (Some sd15_pipeline) /\
  existsb is_release (events run) = false.
Proof. vm_compute. repeat split. Qed.

(** C3, amended: a load whose path does not exist returns no handle and the
    "not found" message, and leaves the generator exactly as it was, with no
    call to any library: a model loaded before stays loaded and is not
    released, and the generator is without a model afterwards only if it was
    so before.  The same holds for [load_checkpoint]. *)
Theorem C3_missing_artifact_leaves_generator_unchanged
        w name type (s : App.Self) (ms : Mini.Self) :
  (path_exists w (joinpath w (App.model_path s) name) = false ->
   App.load_model w name type s =
   (Returns (None,
             "Model not found at " ++ joinpath w (App.model_path s) name),
    s, [])) /\
  (path_exists w (joinpath w (Mini.checkpoints_dir ms) name) = false ->
   Mini.load_checkpoint w name ms =
   (Returns (None,
             "Checkpoint not found at " ++
             joinpath w (Mini.checkpoints_dir ms) name),
    ms, [])).
Proof.
  split; intros Hx; unfold_methods; cbn; rewrite Hx; reflexivity.
Qed.

Lemma C3_missing_artifact_leaves_generator_unchanged_witness :
  App.load_model nothing_on_disk "missing" "SD1.5" loaded_generator =
  (Returns (None, "Model not found at models/missing"),
   loaded_generator, []) /\
  Mini.load_checkpoint nothing_on_disk "missing" loaded_minified =
  (Returns (None, "Checkpoint not found at checkpoints/missing"),
   loaded_minified, []).
Proof.
  destruct (C3_missing_artifact_leaves_generator_unchanged
              nothing_on_disk "missing" "SD1.5" loaded_generator
              loaded_minified) as [Ha Hm].
  split; [apply Ha | apply Hm]; reflexivity.
Defined.

(** ** Successful loads *)

(** A [load_model] that returns a handle has run every step: the handle is
    the pipeline built from the path, with the refined scheduler, both
    slicing flags and the device of the generator, and it is what the
    generator holds, under the name it was loaded by. *)
Lemma load_model_success w name type s p msg s' l :
  App.load_model w name type s = (Returns (Some p, msg), s', l) ->
  exists cls kw native,
    from_pretrained w cls (joinpath w (App.model_path s) name) kw =
    Returns native /\
    p = mkPipeline cls (joinpath w (App.model_path s) name)
                   (DPMSolverMultistepScheduler native true None)
                   true true false (App.device s) /\
    s' = App.mkSelf (App.model_path s) (App.device s) (Bound (Some p))
                    (Some name) /\
    msg = "Successfully loaded " ++ name /\
    In (EvFromConfig native true None) l.
Proof.
  intros H. revert H. run_method; intros H; try discriminate;
    inversion H; subst; clear H;
    do 3 eexists; (split; [first [eassumption | reflexivity] |]);
    repeat split; cbn; auto 10.
Qed.


Lemma Device_eqb_refl d : Device_eqb d d = true.
Proof. destruct d; reflexivity. Qed.

(** ** C4: the handle *)

(** C4, counterexample: the first load builds the pipeline and then fails
    when moving it to the device.  The load answers with an error and no
    handle, but the generator keeps the pipeline it was configuring: the
    invariant is broken, and the next generate calls that pipeline. *)
Lemma C4_partial_handle_after_failed_placement :
  let load := App.load_model placement_fails "sd15" "SD1.5"
                             fresh_generator in
  let left_over := mkPipeline StableDiffusionPipeline "models/sd15"
                     (DPMSolverMultistepScheduler
                        [("_class_name", "PNDMScheduler")] true None)
                     true true false cpu in
  outcome load = Returns (None, "Error loading model: CUDA out of memory") /\
  handle_invariant fresh_generator = true /\
  App.pipeline (state_after load) = Bound (Some left_over) /\
  App.current_model (state_after load) = None /\
  fully_initialized (state_after load) left_over = false /\
  handle_invariant (state_after load) = false /\
  exists a,
    pipeline_calls
      (events (App.generate_image calm "a cat" "" 25 (15 # 2) 512 512 7
                                  (state_after load)))
    = [(left_over, a)].
Proof. vm_compute. repeat split. eexists. reflexivity. Qed.

(** What a load can do to the generator: leave the invariant in force,
    leave the generator as it was, or fail half way. *)
Lemma load_model_invariant_cases w name type s :
  handle_invariant (state_after (App.load_model w name type s)) = true \/
  state_after (App.load_model w name type s) = s \/
  fails_after_construction w s name type.
Proof.
  unfold fails_after_construction. cbv zeta.
  run_method;
    first
      [ right; left; reflexivity
      | left; unfold handle_invariant, fully_initialized; cbn;
        rewrite ?Device_eqb_refl; reflexivity
      | right; right; do 5 eexists;
        split; [cbn; repeat (first [left; reflexivity | right]) |];
        split; [eassumption | reflexivity] ].
Qed.

(** C4, amended: after every load or generate call the invariant holds,
    except after a load that fails half way, that is, after
    [from_pretrained] has returned the pipeline.  A load that returns a
    handle leaves exactly that handle, fully initialised: the refined
    sampler is attached, both slicing flags are set, the pipeline is on the
    device of the generator and the identifier is recorded.  A load that
    fails without having built a pipeline (the path is missing, the
    attribute cannot be read, the release or the construction raises) keeps
    the invariant.  No generate call changes the generator. *)
Theorem C4_handle_invariant_kept_unless_load_fails_half_way w name type s :
  let load := App.load_model w name type s in
  (forall p msg,
     outcome load = Returns (Some p, msg) ->
     App.pipeline (state_after load) = Bound (Some p) /\
     fully_initialized (state_after load) p = true /\
     App.current_model (state_after load) = Some name /\
     pipe_source p = joinpath w (App.model_path s) name /\
     handle_invariant (state_after load) = true) /\
  (handle_invariant s = true ->
   ~ fails_after_construction w s name type ->
   handle_invariant (state_after load) = true) /\
  (forall w2 pr np st g wd h seed,
     state_after (App.generate_image w2 pr np st g wd h seed s) = s).
Proof.
  intros load. split; [| split].
  - intros p msg Ho. subst load.
    destruct (App.load_model w name type s) as [[o s'] l] eqn:E.
    cbn in Ho |- *. subst o.
    destruct (load_model_success _ _ _ _ _ _ _ _ E)
      as (cls & kw & native & _ & Hp & Hs & _ & _).
    assert (Hh : App.pipeline s' = Bound (Some p))
      by (subst s'; reflexivity).
    assert (Hc : App.current_model s' = Some name)
      by (subst s'; reflexivity).
    assert (Hf : fully_initialized s' p = true).
    { subst s' p. unfold fully_initialized. cbn. apply Device_eqb_refl. }
    repeat split; auto.
    + subst p. reflexivity.
    + unfold handle_invariant. now rewrite Hh, Hf, Hc.
  - intros Hinv Hnot. subst load.
    destruct (load_model_invariant_cases w name type s) as [H | [H | H]].
    + exact H.
    + rewrite H. exact Hinv.
    + contradiction.
  - intros. apply generate_image_keeps_self.
Qed.

Lemma C4_handle_invariant_kept_unless_load_fails_half_way_witness :
  handle_invariant loaded_generator = true /\
  handle_invariant
    (state_after (App.load_model construction_fails "sd21" "SD2.1"
                                 loaded_generator)) = true /\
  handle_invariant
    (state_after (App.load_model nothing_on_disk "sd21" "SD2.1"
                                 loaded_generator)) = true.
Proof.
  assert (Hc : ~ fails_after_construction construction_fails
                   loaded_generator "sd21" "SD2.1").
  { intros (cls & path & kw & native & message & _ & Hr & _).
    discriminate Hr. }
  assert (Hn : ~ fails_after_construction nothing_on_disk
                   loaded_generator "sd21" "SD2.1").
  { intros (cls & path & kw & native & message & Hin & _). destruct Hin. }
  split; [reflexivity |]. split.
  - apply (C4_handle_invariant_kept_unless_load_fails_half_way
             construction_fails "sd21" "SD2.1" loaded_generator);
      [reflexivity | exact Hc].
  - apply (C4_handle_invariant_kept_unless_load_fails_half_way
             nothing_on_disk "sd21" "SD2.1" loaded_generator);
      [reflexivity | exact Hn].
Defined.

(** ** C5: the engine raises *)

(** C5: when the engine raises during a generate, on building the seeded
    generator or in the pipeline call, the call returns no image and the
    error message carrying the text of the exception, and the generator is
    as before: the same pipeline, the same recorded identifier, still
    loaded. *)
Theorem C5_engine_failure_keeps_model w pr np st g wd h seed s p e :
  App.pipeline s = Bound (Some p) ->
  engine_raises w (App.device s) p pr (App.negative_prompt_or_None np)
                st g wd h (resolved_seed w seed) e ->
  let run := App.generate_image w pr np st g wd h seed s in
  outcome run = Returns (None, "Error generating image: " ++ str_exn e) /\
  state_after run = s /\
  App.pipeline (state_after run) = Bound (Some p) /\
  App.current_model (state_after run) = App.current_model s /\
  is_loaded (state_after run) = true.
Proof.
  intros Hp He run.
  assert (Hs : state_after run = s) by apply generate_image_keeps_self.
  rewrite Hs. unfold is_loaded. rewrite Hp.
  split; [| repeat split].
  destruct (generate_image_loaded w pr np st g wd h seed s p Hp)
    as (_ & _ & Hm).
  destruct He as [He | [Hg He]].
  - rewrite He in Hm. apply Hm.
  - rewrite Hg, He in Hm. apply Hm.
Qed.

Lemma C5_engine_failure_keeps_model_witness :
  let run := App.generate_image engine_fails "a cat" "" 25 (15 # 2) 512 512
                                7 loaded_generator in
  outcome run =
  Returns (None, "Error generating image: CUDA out of memory") /\
  state_after run = loaded_generator /\
  App.pipeline (state_after run) = Bound (Some sd15_pipeline) /\
  App.current_model (state_after run) = Some "sd15" /\
  is_loaded (state_after run) = true.
Proof.
  apply (C5_engine_failure_keeps_model
           engine_fails "a cat" "" 25 (15 # 2) 512 512 7 loaded_generator
           sd15_pipeline out_of_memory).
  - reflexivity.
  - right. split; reflexivity.
Defined.

(** ** C6: the seed sentinel *)

(** C6: with a model loaded, a generate with seed -1 builds its generator
    from one seed, that seed is at least 0 and below 2^32 - 1, so never -1,
    and it is the seed the info message of a successful call reports; with
    any other seed the generator is built from the seed supplied and the
    info message reports that seed.  The same holds in minified_app.py. *)
Theorem C6_seed_resolution w pr np st g wd h seed s p ms mp :
  App.pipeline s = Bound (Some p) ->
  Mini.pipeline ms = Bound (Some mp) ->
  let run := App.generate_image w pr np st g wd h seed s in
  let mrun := Mini.generate_image w pr np st g wd h seed ms in
  exists r,
    seeds_of (events run) = [r] /\
    seeds_of (events mrun) = [r] /\
    (forall image info,
       outcome run = Returns (Some image, info) ->
       info = "Generated with seed: " ++ str_int r) /\
    (forall image info,
       outcome mrun = Returns (Some image, info) ->
       info = "Generated with seed: " ++ str_int r ++ Mini.newline ++
              "Checkpoint: " ++
              Mini.str_checkpoint (Mini.current_checkpoint ms)) /\
    (seed = -1 -> 0 <= r < 2 ^ 32 - 1 /\ r <> -1) /\
    (seed <> -1 -> r = seed).
Proof.
  intros Hp Hmp run mrun. exists (resolved_seed w seed).
  destruct (generate_image_loaded w pr np st g wd h seed s p Hp)
    as (Hs & _ & Hm).
  destruct (minified_generate_image_loaded w pr np st g wd h seed ms mp Hmp)
    as (Hms & _ & Hmm).
  fold run in Hs, Hm. fold mrun in Hms, Hmm.
  split; [exact Hs |]. split; [exact Hms |].
  split; [| split; [| split]].
  - intros image info Ho.
    destruct (manual_seed w (App.device s) (resolved_seed w seed)).
    + destruct Hm as [Hm _]. rewrite Hm in Ho. discriminate.
    + destruct Hm as [_ Hm].
      destruct (call_pipeline w p _) as [[| im ims] | e];
        rewrite Hm in Ho; inversion Ho; reflexivity.
  - intros image info Ho.
    destruct (manual_seed w (Mini.device ms) (resolved_seed w seed)).
    + destruct Hmm as [Hmm _]. rewrite Hmm in Ho. discriminate.
    + destruct Hmm as [_ Hmm].
      destruct (call_pipeline w mp _) as [[| im ims] | e];
        rewrite Hmm in Ho; inversion Ho; reflexivity.
  - intros ->. pose proof (resolved_seed_sentinel w). lia.
  - apply resolved_seed_explicit.
Qed.

Lemma C6_seed_resolution_witness :
  exists r,
    seeds_of (events (App.generate_image calm "a cat" "" 25 (15 # 2) 512 512
                                         (-1) loaded_generator)) = [r] /\
    seeds_of (events (Mini.generate_image calm "a cat" "" 25 (15 # 2) 512 512
                                          (-1) loaded_minified)) = [r] /\
    0 <= r < 2 ^ 32 - 1 /\ r <> -1.
Proof.
  destruct (C6_seed_resolution calm "a cat" "" 25 (15 # 2) 512 512 (-1)
              loaded_generator sd15_pipeline loaded_minified
              sd15_checkpoint_pipeline eq_refl eq_refl)
    as (r & Hs & Hms & _ & _ & Hr & _).
  exists r. split; [exact Hs |]. split; [exact Hms |]. apply Hr. reflexivity.
Defined.

(** ** C7: the info message *)

(** C7: the info message of every successful generate names the seed its
    generator was built from; and two successful generates on generators
    holding the same pipeline, with the same request and the same seed other
    than -1, return the same info message, naming that seed, whatever the
    two worlds answer. *)
Theorem C7_info_names_resolved_seed
        w1 w2 pr np st g wd h seed s1 s2 p im1 info1 :
  App.pipeline s1 = Bound (Some p) ->
  outcome (App.generate_image w1 pr np st g wd h seed s1) =
  Returns (Some im1, info1) ->
  (exists r,
     seeds_of (events (App.generate_image w1 pr np st g wd h seed s1)) = [r]
     /\ info1 = "Generated with seed: " ++ str_int r
     /\ includes (str_int r) info1) /\
  (forall im2 info2,
     App.pipeline s2 = Bound (Some p) ->
     seed <> -1 ->
     outcome (App.generate_image w2 pr np st g wd h seed s2) =
     Returns (Some im2, info2) ->
     info1 = info2 /\ info1 = "Generated with seed: " ++ str_int seed).
Proof.
  intros Hp1 Ho1.
  assert (Hinfo : forall w s im info,
             App.pipeline s = Bound (Some p) ->
             outcome (App.generate_image w pr np st g wd h seed s) =
             Returns (Some im, info) ->
             info = "Generated with seed: " ++ str_int (resolved_seed w seed)).
  { intros w s im info Hp Ho.
    destruct (generate_image_loaded w pr np st g wd h seed s p Hp)
      as (_ & _ & Hm).
    destruct (manual_seed w (App.device s) (resolved_seed w seed)).
    - destruct Hm as [Hm _]. rewrite Hm in Ho. discriminate.
    - destruct Hm as [_ Hm].
      destruct (call_pipeline w p _) as [[| i rest] | e];
        rewrite Hm in Ho; inversion Ho; reflexivity. }
  pose proof (Hinfo w1 s1 im1 info1 Hp1 Ho1) as H1.
  split.
  - exists (resolved_seed w1 seed).
    destruct (generate_image_loaded w1 pr np st g wd h seed s1 p Hp1)
      as (Hs & _).
    split; [exact Hs |]. split; [exact H1 |].
    rewrite H1. apply includes_suffix.
  - intros im2 info2 Hp2 Hseed Ho2.
    pose proof (Hinfo w2 s2 im2 info2 Hp2 Ho2) as H2.
    rewrite (resolved_seed_explicit w1 seed Hseed) in H1.
    rewrite (resolved_seed_explicit w2 seed Hseed) in H2.
    split; congruence.
Qed.

Lemma C7_info_names_resolved_seed_witness :
  outcome (App.generate_image calm "a cat" "" 25 (15 # 2) 512 512 42
                              loaded_generator) =
  Returns (Some (PILImage 1), "Generated with seed: 42") /\
  outcome (App.generate_image engine_fails "a cat" "" 25 (15 # 2) 512 512 42
                              loaded_generator) =
  Returns (None, "Error generating image: CUDA out of memory") /\
  (exists r,
     seeds_of (events (App.generate_image calm "a cat" "" 25 (15 # 2) 512
                                          512 42 loaded_generator)) = [r]
     /\ "Generated with seed: 42" = "Generated with seed: " ++ str_int r
     /\ includes (str_int r) "Generated with seed: 42") /\
  (forall im2 info2,
     App.pipeline loaded_generator = Bound (Some sd15_pipeline) ->
     42 <> -1 ->
     outcome (App.generate_image calm "a cat" "" 25 (15 # 2) 512 512 42
                                 loaded_generator) =
     Returns (Some im2, info2) ->
     "Generated with seed: 42" = info2 /\
     "Generated with seed: 42" = "Generated with seed: " ++ str_int 42).
Proof.
  split; [reflexivity |]. split; [reflexivity |].
  apply (C7_info_names_resolved_seed
           calm calm "a cat" "" 25 (15 # 2) 512 512 42
           loaded_generator loaded_generator sd15_pipeline
           (PILImage 1) "Generated with seed: 42");
    reflexivity.
Defined.

(** ** C8: generate without a model *)

(** A load that cannot build a pipeline leaves a generator without a
    model as it was. *)
Lemma load_model_builds_nothing w name type s :
  App.pipeline s = Bound None ->
  builds_nothing w s name type ->
  state_after (App.load_model w name type s) = s.
Proof.
  unfold builds_nothing, constructed.
  intros Hp [Hx | [e He]]; unfold_methods; cbn.
  - rewrite Hx. reflexivity.
  - destruct (path_exists w _); cbn; [| reflexivity].
    rewrite Hp. cbn.
    destruct (String.eqb type "SDXL"); cbn; rewrite He; reflexivity.
Qed.

Lemma load_checkpoint_builds_nothing w name s :
  Mini.pipeline s = Bound None ->
  checkpoint_builds_nothing w s name ->
  state_after (Mini.load_checkpoint w name s) = s.
Proof.
  unfold checkpoint_builds_nothing. cbv zeta.
  intros Hp [Hx | [e He]]; unfold_methods; cbn.
  - rewrite Hx. reflexivity.
  - destruct (path_exists w _); cbn; [| reflexivity].
    rewrite Hp. cbn. rewrite He. reflexivity.
Qed.

Lemma after_loads_builds_nothing loads s :
  App.pipeline s = Bound None ->
  Forall (fun load => let '(w, name, type) := load in
                      builds_nothing w s name type) loads ->
  after_loads loads s = s.
Proof.
  intros Hp Hall. unfold after_loads.
  induction Hall as [| [[w name] type] rest Hb _ IH]; cbn; [reflexivity |].
  rewrite (load_model_builds_nothing w name type s Hp Hb). exact IH.
Qed.

Lemma after_checkpoint_loads_builds_nothing loads s :
  Mini.pipeline s = Bound None ->
  Forall (fun load => let '(w, name) := load in
                      checkpoint_builds_nothing w s name) loads ->
  after_checkpoint_loads loads s = s.
Proof.
  intros Hp Hall. unfold after_checkpoint_loads.
  induction Hall as [| [w name] rest Hb _ IH]; cbn; [reflexivity |].
  rewrite (load_checkpoint_builds_nothing w name s Hp Hb). exact IH.
Qed.

(** C8, counterexample: no load has succeeded, yet generate runs the
    engine.  The first load on the fresh generator builds the pipeline and
    fails when moving it to the device; it answers with an error, and the
    generate after it seeds a generator, calls the pipeline and returns an
    image. *)
Lemma C8_generate_runs_after_failed_first_load :
  let load := App.load_model placement_fails "sd15" "SD1.5"
                             fresh_generator in
  let run := App.generate_image calm "a cat" "" 25 (15 # 2) 512 512 7
                                (state_after load) in
  App.pipeline fresh_generator = Bound None /\
  outcome load = Returns (None, "Error loading model: CUDA out of memory") /\
  outcome run = Returns (Some (PILImage 1), "Generated with seed: 7") /\
  seeds_of (events run) = [7] /\
  length (pipeline_calls (events run)) = 1%nat.
Proof. vm_compute. repeat split. Qed.

(** C8, amended: a generate on a generator that holds no pipeline returns
    no image and the "please load" message, calls nothing outside the
    repository, and leaves the generator as it was.  A generator holds no
    pipeline from its construction on, and still does after any run of
    loads that could not build one, because the path was missing or the
    construction raised, so this covers every generate before the first
    load that got a pipeline built.  The same holds in minified_app.py. *)
Theorem C8_generate_before_load
        loads mloads w pr np st g wd h seed s ms :
  App.pipeline s = Bound None ->
  Mini.pipeline ms = Bound None ->
  Forall (fun load => let '(w1, name, type) := load in
                      builds_nothing w1 s name type) loads ->
  Forall (fun load => let '(w1, name) := load in
                      checkpoint_builds_nothing w1 ms name) mloads ->
  let s1 := after_loads loads s in
  let ms1 := after_checkpoint_loads mloads ms in
  App.generate_image w pr np st g wd h seed s1 =
  (Returns (None, "Please load a model first"), s1, []) /\
  App.generate_image_interface w pr np st g wd h seed s1 =
  (Returns (None, "Please load a model first"), s1, []) /\
  Mini.generate_image w pr np st g wd h seed ms1 =
  (Returns (None, "Please load a checkpoint first"), ms1, []) /\
  s1 = s /\ ms1 = ms /\
  (forall w0 path d, App.pipeline (App.__init__ w0 path d) = Bound None) /\
  (forall w0 path d, Mini.pipeline (Mini.__init__ w0 path d) = Bound None).
Proof.
  intros Hp Hmp Hl Hml s1 ms1.
  assert (E1 : s1 = s) by (apply after_loads_builds_nothing; assumption).
  assert (E2 : ms1 = ms)
    by (apply after_checkpoint_loads_builds_nothing; assumption).
  rewrite E1, E2.
  repeat split; unfold_methods; cbn; rewrite ?Hp, ?Hmp; reflexivity.
Qed.

Lemma C8_generate_before_load_witness :
  let loads := [(nothing_on_disk, "sd15", "SD1.5");
                (construction_fails, "sdxl", "SDXL")] in
  let mloads := [(construction_fails, "sd15.safetensors")] in
  App.generate_image calm "a cat" "" 25 (15 # 2) 512 512 (-1)
                     (after_loads loads fresh_generator) =
  (Returns (None, "Please load a model first"),
   after_loads loads fresh_generator, []) /\
  Mini.generate_image calm "a cat" "" 25 (15 # 2) 512 512 (-1)
                      (after_checkpoint_loads mloads fresh_minified) =
  (Returns (None, "Please load a checkpoint first"),
   after_checkpoint_loads mloads fresh_minified, []).
Proof.
  intros loads mloads.
  destruct (C8_generate_before_load
              loads mloads calm "a cat" "" 25 (15 # 2) 512 512 (-1)
              fresh_generator fresh_minified eq_refl eq_refl)
    as (Ha & _ & Hm & _).
  - constructor; [left; reflexivity |].
    constructor; [right; eexists; reflexivity | constructor].
  - constructor; [right; eexists; reflexivity | constructor].
  - split; assumption.
Defined.

(** ** C9: the sampler *)






(** ** C10: seeds other than the sentinel *)

(** C10: with a model loaded and a seed other than -1, negative or beyond
    32 bits alike, a generate draws no random seed and hands the seed as it
    is to [manual_seed], first of all its calls; when [manual_seed] accepts
    it the pipeline is called with the generator of that seed, and when
    [manual_seed] raises, the call returns the message of that exception:
    the generator object itself refuses no seed.  The same holds in
    minified_app.py. *)
Theorem C10_only_minus_one_is_sentinel w pr np st g wd h seed s p ms mp :
  App.pipeline s = Bound (Some p) ->
  Mini.pipeline ms = Bound (Some mp) ->
  seed <> -1 ->
  let run := App.generate_image w pr np st g wd h seed s in
  let mrun := Mini.generate_image w pr np st g wd h seed ms in
  (randint_draws (events run) = 0%nat /\
   hd_error (events run) = Some (EvManualSeed (App.device s) seed) /\
   seeds_of (events run) = [seed] /\
   (manual_seed w (App.device s) seed = None ->
    exists a, pipeline_calls (events run) = [(p, a)] /\
              arg_generator a = mkGenerator (App.device s) seed) /\
   (forall e, manual_seed w (App.device s) seed = Some e ->
      outcome run = Returns (None, "Error generating image: " ++ str_exn e)))
  /\
  (randint_draws (events mrun) = 0%nat /\
   hd_error (events mrun) = Some (EvManualSeed (Mini.device ms) seed) /\
   seeds_of (events mrun) = [seed] /\
   (manual_seed w (Mini.device ms) seed = None ->
    exists a, pipeline_calls (events mrun) = [(mp, a)] /\
              arg_generator a = mkGenerator (Mini.device ms) seed) /\
   (forall e, manual_seed w (Mini.device ms) seed = Some e ->
      outcome mrun =
      Returns (None, "❌ Error generating image: " ++ str_exn e))).
Proof.
  intros Hp Hmp Hseed run mrun.
  assert (Hnot : Z.eqb seed (-1) = false) by (apply Z.eqb_neq; exact Hseed).
  split.
  - destruct (generate_image_loaded w pr np st g wd h seed s p Hp)
      as (Hs & Hd & Hm).
    fold run in Hs, Hd, Hm.
    rewrite (resolved_seed_explicit w seed Hseed) in *.
    rewrite Hnot in Hd.
    split; [exact Hd |]. split; [| split; [exact Hs |]].
    + subst run. clear Hs Hd Hm. run_method; try discriminate; reflexivity.
    + split.
      * intros Hok. rewrite Hok in Hm. destruct Hm as [Hc _].
        eexists. split; [exact Hc | reflexivity].
      * intros e He. rewrite He in Hm. apply Hm.
  - destruct (minified_generate_image_loaded w pr np st g wd h seed ms mp Hmp)
      as (Hs & Hd & Hm).
    fold mrun in Hs, Hd, Hm.
    rewrite (resolved_seed_explicit w seed Hseed) in *.
    rewrite Hnot in Hd.
    split; [exact Hd |]. split; [| split; [exact Hs |]].
    + subst mrun. clear Hs Hd Hm. run_method; try discriminate; reflexivity.
    + split.
      * intros Hok. rewrite Hok in Hm. destruct Hm as [Hc _].
        eexists. split; [exact Hc | reflexivity].
      * intros e He. rewrite He in Hm. apply Hm.
Qed.

Lemma C10_only_minus_one_is_sentinel_witness :
  seeds_of (events (App.generate_image calm "a cat" "" 25 (15 # 2) 512 512
                                       (-2) loaded_generator)) = [-2] /\
  seeds_of (events (Mini.generate_image calm "a cat" "" 25 (15 # 2) 512 512
                                        (2 ^ 32) loaded_minified))
  = [2 ^ 32].
Proof.
  destruct (C10_only_minus_one_is_sentinel
              calm "a cat" "" 25 (15 # 2) 512 512 (-2)
              loaded_generator sd15_pipeline loaded_minified
              sd15_checkpoint_pipeline
              eq_refl eq_refl ltac:(discriminate))
    as [(_ & _ & Ha & _) _].
  destruct (C10_only_minus_one_is_sentinel
              calm "a cat" "" 25 (15 # 2) 512 512 (2 ^ 32)
              loaded_generator sd15_pipeline loaded_minified
              sd15_checkpoint_pipeline
              eq_refl eq_refl ltac:(discriminate))
    as [_ (_ & _ & Hm & _)].
  split; assumption.
Defined.

(** * Further properties of the two generators *)

(** ** Loading *)

(** X1: the two load functions of the forms never raise: whatever the
    libraries and the disk answer, and whatever state the generator is in,
    even without its [pipeline] attribute, the click gets a status line. *)
Theorem X1_load_interfaces_always_answer w name type s ms :
  (exists message,
     outcome (App.load_model_interface w name type s) = Returns message) /\
  (exists message,
     outcome (Mini.load_checkpoint_interface w name ms) = Returns message).
Proof. split; run_method; eexists; reflexivity. Qed.

(** X2: a load of an existing path on a generator that holds a pipeline
    gives the memory back first: [empty_cache] is called before anything is
    built; a load on a generator that holds none never calls it. *)
Theorem X2_release_comes_first w name type s p :
  (App.pipeline s = Bound (Some p) ->
   path_exists w (joinpath w (App.model_path s) name) = true ->
   hd_error (events (App.load_model w name type s)) = Some EvEmptyCache) /\
  (App.pipeline s = Bound None ->
   existsb is_release (events (App.load_model w name type s)) = false).
Proof.
  split.
  - intros Hp Hx. unfold_methods. cbn. rewrite Hx. cbn. rewrite Hp. cbn.
    repeat case_step; reflexivity.
  - intros Hp. unfold_methods. cbn.
    destruct (path_exists w _); cbn; [| reflexivity].
    rewrite Hp. cbn. repeat case_step; reflexivity.
Qed.

Lemma X2_release_comes_first_witness :
  hd_error (events (App.load_model calm "sd21" "SD2.1" loaded_generator)) =
  Some EvEmptyCache /\
  existsb is_release
          (events (App.load_model calm "sd15" "SD1.5" fresh_generator)) =
  false.
Proof.
  destruct (X2_release_comes_first calm "sd21" "SD2.1" loaded_generator
                                   sd15_pipeline) as [Ha _].
  destruct (X2_release_comes_first calm "sd15" "SD1.5" fresh_generator
                                   sd15_pipeline) as [_ Hb].
  split; [apply Ha | apply Hb]; reflexivity.
Defined.

(** X3: when the first load fails while building the pipeline, the
    generator is left exactly as it was, without a model, and a generate
    after it answers "Please load a model first". *)
Theorem X3_failed_first_load_leaves_generator_unloaded
        w name type s e w2 pr np st g wd h seed :
  App.pipeline s = Bound None ->
  path_exists w (joinpath w (App.model_path s) name) = true ->
  (forall cls kw,
     from_pretrained w cls (joinpath w (App.model_path s) name) kw =
     Raises e) ->
  let load := App.load_model w name type s in
  outcome load = Returns (None, "Error loading model: " ++ str_exn e) /\
  state_after load = s /\
  outcome (App.generate_image w2 pr np st g wd h seed (state_after load)) =
  Returns (None, "Please load a model first").
Proof.
  intros Hp Hx He load.
  assert (Hl : outcome load =
               Returns (None, "Error loading model: " ++ str_exn e) /\
               state_after load = s).
  { subst load. unfold_methods. cbn. rewrite Hx. cbn. rewrite Hp. cbn.
    destruct (String.eqb type "SDXL"); cbn; rewrite He; cbn;
      split; reflexivity. }
  destruct Hl as [Ho Hs]. split; [exact Ho |]. split; [exact Hs |].
  rewrite Hs. unfold_methods. cbn. rewrite Hp. reflexivity.
Qed.

Lemma X3_failed_first_load_leaves_generator_unloaded_witness :
  let load := App.load_model construction_fails "sd15" "SD1.5"
                             fresh_generator in
  outcome load = Returns (None, "Error loading model: CUDA out of memory") /\
  state_after load = fresh_generator /\
  outcome (App.generate_image calm "a cat" "" 25 (15 # 2) 512 512 7
                              (state_after load)) =
  Returns (None, "Please load a model first").
Proof.
  apply (X3_failed_first_load_leaves_generator_unloaded
           construction_fails "sd15" "SD1.5" fresh_generator out_of_memory
           calm "a cat" "" 25 (15 # 2) 512 512 7);
    reflexivity.
Defined.

(** X4: only the model type ["SDXL"], spelled exactly so, selects the XL
    pipeline class; every other type, ["SD2.1"] and unknown strings alike,
    is loaded precisely as ["SD1.5"] is. *)
Theorem X4_model_type_dispatch w name type s p msg s' l :
  (String.eqb type "SDXL" = false ->
   App.load_model w name type s = App.load_model w name "SD1.5" s) /\
  (App.load_model w name type s = (Returns (Some p, msg), s', l) ->
   pipe_class p = if String.eqb type "SDXL"
                  then StableDiffusionXLPipeline
                  else StableDiffusionPipeline).
Proof.
  split.
  - intros Ht. unfold App.load_model. rewrite Ht. reflexivity.
  - intros H. revert H. run_method; intros H; try discriminate;
      inversion H; subst; reflexivity.
Qed.

Lemma X4_model_type_dispatch_witness :
  App.load_model calm "sd21" "sdxl" fresh_generator =
  App.load_model calm "sd21" "SD1.5" fresh_generator /\
  pipe_class sd15_pipeline = StableDiffusionPipeline.
Proof.
  destruct (X4_model_type_dispatch
              calm "sd21" "sdxl" fresh_generator sd15_pipeline "" 
              fresh_generator []) as [Ha _].
  destruct (X4_model_type_dispatch
              calm "sd15" "SD1.5" fresh_generator sd15_pipeline
              "Successfully loaded sd15" loaded_generator
              (events (App.load_model calm "sd15" "SD1.5" fresh_generator)))
    as [_ Hb].
  split; [apply Ha | apply Hb]; reflexivity.
Defined.

(** X5: no method changes where the generator looks for models or which
    device it uses: [load_model], [load_checkpoint] and both
    [generate_image] keep the directory and the device of the object. *)
Theorem X5_directory_and_device_are_fixed
        w name type s ms pr np st g wd h seed :
  App.model_path (state_after (App.load_model w name type s)) =
  App.model_path s /\
  App.device (state_after (App.load_model w name type s)) = App.device s /\
  Mini.checkpoints_dir (state_after (Mini.load_checkpoint w name ms)) =
  Mini.checkpoints_dir ms /\
  Mini.device (state_after (Mini.load_checkpoint w name ms)) =
  Mini.device ms /\
  state_after (App.generate_image w pr np st g wd h seed s) = s /\
  state_after (Mini.generate_image w pr np st g wd h seed ms) = ms.
Proof.
  split; [| split; [| split; [| split; [| split]]]].
  - run_method; reflexivity.
  - run_method; reflexivity.
  - run_method; reflexivity.
  - run_method; reflexivity.
  - apply generate_image_keeps_self.
  - apply minified_generate_image_keeps_self.
Qed.

(** X6: a generator built while CUDA is not available works on the host,
    whatever device it was asked for: the pipeline of every successful load
    is placed on [cpu], and every pipeline call of a later generate gets a
    generator seeded on [cpu]. *)
Theorem X6_cpu_fallback
        w0 path d w name type p msg s' l w2 pr np st g wd h seed :
  cuda_is_available w0 = false ->
  App.load_model w name type (App.__init__ w0 path d) =
  (Returns (Some p, msg), s', l) ->
  App.device s' = cpu /\
  pipe_device p = cpu /\
  forall q a,
    In (q, a)
       (pipeline_calls
          (events (App.generate_image w2 pr np st g wd h seed s'))) ->
    pipe_device q = cpu /\ gen_device (arg_generator a) = cpu.
Proof.
  intros Hc H.
  destruct (load_model_success _ _ _ _ _ _ _ _ H)
    as (cls & kw & native & _ & Hp & Hs & _ & _).
  assert (Hd : App.device s' = cpu).
  { subst s'. unfold App.__init__. cbn. now rewrite Hc. }
  assert (Hpd : pipe_device p = cpu).
  { subst p. unfold App.__init__. cbn. now rewrite Hc. }
  assert (Hh : App.pipeline s' = Bound (Some p)) by (subst s'; reflexivity).
  split; [exact Hd |]. split; [exact Hpd |].
  intros q a Hq.
  destruct (generate_image_loaded w2 pr np st g wd h seed s' p Hh)
    as (_ & _ & Hm).
  destruct (manual_seed w2 (App.device s') (resolved_seed w2 seed)).
  - destruct Hm as [_ Hcalls]. rewrite Hcalls in Hq. destruct Hq.
  - destruct Hm as [Hcalls _]. rewrite Hcalls in Hq.
    destruct Hq as [E | []]. inversion E; subst q a. cbn.
    split; assumption.
Qed.

(** A world without CUDA in which everything else works. *)
Lemma X6_cpu_fallback_witness :
  let w0 := mkWorld false (joinpath calm) (path_exists calm)
                    (from_pretrained calm) (from_single_file calm)
                    (from_config calm) (enable_attention_slicing calm)
                    (enable_vae_slicing calm)
                    (enable_xformers_memory_efficient_attention calm)
                    (to_device calm) None 5 (manual_seed calm)
                    (call_pipeline calm) in
  let load := App.load_model calm "sd15" "SD1.5"
                             (App.__init__ w0 "./models" cuda) in
  App.device (state_after load) = cpu /\
  pipeline_calls
    (events (App.generate_image calm "a cat" "" 25 (15 # 2) 512 512 7
                                (state_after load))) =
  [(set_device sd15_pipeline cpu,
    mkPipelineArgs "a cat" None 25 (15 # 2) 512 512 (mkGenerator cpu 7))].
Proof.
  intros w0 load.
  destruct (X6_cpu_fallback w0 "./models" cuda calm "sd15" "SD1.5"
              (set_device sd15_pipeline cpu) "Successfully loaded sd15"
              (state_after load) (events load)
              calm "a cat" "" 25 (15 # 2) 512 512 7 eq_refl eq_refl)
    as (Hd & _ & _).
  split; [exact Hd | reflexivity].
Defined.

(** ** Loading, then generating *)

(** X7: after a load that returned a handle, a generate whose generator
    can be seeded and whose pipeline call returns images calls exactly that
    handle, once, and returns the first image with the seed in the info. *)
Theorem X7_generate_after_load
        w name type s p msg s' l w2 pr np st g wd h seed image rest :
  App.load_model w name type s = (Returns (Some p, msg), s', l) ->
  manual_seed w2 (App.device s') (resolved_seed w2 seed) = None ->
  call_pipeline w2 p
    (mkPipelineArgs pr (App.negative_prompt_or_None np) st g wd h
                    (mkGenerator (App.device s') (resolved_seed w2 seed))) =
  Returns (image :: rest) ->
  let run := App.generate_image_interface w2 pr np st g wd h seed s' in
  outcome run =
  Returns (Some image,
           "Generated with seed: " ++ str_int (resolved_seed w2 seed)) /\
  pipeline_calls (events run) =
  [(p, mkPipelineArgs pr (App.negative_prompt_or_None np) st g wd h
                      (mkGenerator (App.device s') (resolved_seed w2 seed)))]
  /\ state_after run = s'.
Proof.
  intros H Hseed Hcall run. subst run.
  rewrite generate_image_interface_eq.
  destruct (load_model_success _ _ _ _ _ _ _ _ H)
    as (cls & kw & native & _ & _ & Hs & _ & _).
  assert (Hh : App.pipeline s' = Bound (Some p)) by (subst s'; reflexivity).
  destruct (generate_image_loaded w2 pr np st g wd h seed s' p Hh)
    as (_ & _ & Hm).
  rewrite Hseed, Hcall in Hm. destruct Hm as [Hc Ho].
  split; [exact Ho |]. split; [exact Hc |].
  apply generate_image_keeps_self.
Qed.

Lemma X7_generate_after_load_witness :
  let run := App.generate_image_interface calm "a cat" "blurry" 25 (15 # 2)
                                          512 512 7 loaded_generator in
  outcome run = Returns (Some (PILImage 1), "Generated with seed: 7") /\
  pipeline_calls (events run) =
  [(sd15_pipeline,
    mkPipelineArgs "a cat" (Some "blurry") 25 (15 # 2) 512 512
                   (mkGenerator cuda 7))] /\
  state_after run = loaded_generator.
Proof.
  apply (X7_generate_after_load
           calm "sd15" "SD1.5" fresh_generator sd15_pipeline
           "Successfully loaded sd15" loaded_generator
           (events (App.load_model calm "sd15" "SD1.5" fresh_generator))
           calm "a cat" "blurry" 25 (15 # 2) 512 512 7 (PILImage 1) []);
    reflexivity.
Defined.

(** X8: in minified_app.py the info of every successful generate is the
    seed line, a line break and ["Checkpoint: "] followed by
    [self.current_checkpoint] as an f-string prints it; [load_checkpoint]
    sets that attribute to the file name exactly when it returns a handle
    and leaves it alone otherwise.  So the info names the checkpoint of the
    last load that returned a handle, and reads ["Checkpoint: None"] as
    long as none has. *)
Theorem X8_info_names_loaded_checkpoint
        w name s w2 pr np st g wd h seed image info :
  (outcome (Mini.generate_image_interface w2 pr np st g wd h seed s) =
   Returns (Some image, info) ->
   info = "Generated with seed: " ++ str_int (resolved_seed w2 seed) ++
          Mini.newline ++ "Checkpoint: " ++
          Mini.str_checkpoint (Mini.current_checkpoint s)) /\
  Mini.current_checkpoint (state_after (Mini.load_checkpoint w name s)) =
  match outcome (Mini.load_checkpoint w name s) with
  | Returns (Some _, _) => Some name
  | _ => Mini.current_checkpoint s
  end.
Proof.
  split.
  - unfold resolved_seed. intros Ho. revert Ho.
    run_method; intros Ho; try discriminate; inversion Ho; reflexivity.
  - run_method; reflexivity.
Qed.

Lemma X8_info_names_loaded_checkpoint_witness :
  let half_built :=
    state_after (Mini.load_checkpoint placement_fails "sd15.safetensors"
                                      fresh_minified) in
  outcome (Mini.generate_image_interface calm "a cat" "" 25 (15 # 2)
                                         512 512 7 loaded_minified) =
  Returns (Some (PILImage 1),
           "Generated with seed: 7" ++ Mini.newline ++
           "Checkpoint: sd15.safetensors") /\
  outcome (Mini.generate_image_interface calm "a cat" "" 25 (15 # 2)
                                         512 512 7 half_built) =
  Returns (Some (PILImage 1),
           "Generated with seed: 7" ++ Mini.newline ++ "Checkpoint: None")
  /\
  "Generated with seed: 7" ++ Mini.newline ++ "Checkpoint: None" =
  "Generated with seed: " ++ str_int (resolved_seed calm 7) ++
  Mini.newline ++ "Checkpoint: " ++
  Mini.str_checkpoint (Mini.current_checkpoint half_built).
Proof.
  intros half_built.
  split; [reflexivity |]. split; [reflexivity |].
  apply (X8_info_names_loaded_checkpoint
           calm "sd15.safetensors" half_built
           calm "a cat" "" 25 (15 # 2) 512 512 7 (PILImage 1)).
  reflexivity.
Defined.

(** X9: the memory-efficient attention is optional: when every other step
    of [load_checkpoint] works, the load succeeds whether or not enabling
    xformers raises; the handle has xformers on exactly when it did not
    raise, and otherwise the fallback line is printed. *)
Theorem X9_xformers_is_optional w name s native :
  let path := joinpath w (Mini.checkpoints_dir s) name in
  let prepared :=
    mkPipeline StableDiffusionPipeline path
               (DPMSolverMultistepScheduler native true (Some "dpmsolver++"))
               true true false cpu in
  let load := Mini.load_checkpoint w name s in
  Mini.pipeline s = Bound None ->
  path_exists w path = true ->
  from_single_file w path Mini.single_file_kwargs = Returns native ->
  from_config w native true (Some "dpmsolver++") = None ->
  (forall p, enable_attention_slicing w p = None) ->
  (forall p, enable_vae_slicing w p = None) ->
  (forall p d, to_device w p d = None) ->
  exists p,
    outcome load = Returns (Some p, "✅ Successfully loaded " ++ name) /\
    Mini.pipeline (state_after load) = Bound (Some p) /\
    (xformers p = true <->
     enable_xformers_memory_efficient_attention w prepared = None) /\
    (In (EvPrint "⚠️  XFormers not available, using default attention")
        (events load) <->
     enable_xformers_memory_efficient_attention w prepared <> None).
Proof.
  intros path prepared load Hp Hx Hf Hc Ha Hv Ht.
  subst load path prepared. unfold_methods. cbn.
  rewrite Hx. cbn. rewrite Hp. cbn. rewrite Hf. cbn. rewrite Hc. cbn.
  rewrite Ha. cbn. rewrite Hv. cbn.
  destruct (enable_xformers_memory_efficient_attention w _) eqn:He; cbn;
    rewrite Ht; cbn; eexists; (split; [reflexivity |]);
    (split; [reflexivity |]); cbn; split; split; intros H;
    try discriminate; try reflexivity; try congruence.
  - repeat (try (left; reflexivity); right).
  - exfalso. decompose [or] H; try discriminate; assumption.
Qed.

Lemma X9_xformers_is_optional_witness :
  exists p,
    outcome (Mini.load_checkpoint no_xformers "sd15.safetensors"
                                  fresh_minified) =
    Returns (Some p, "✅ Successfully loaded sd15.safetensors") /\
    xformers p = false.
Proof.
  destruct (X9_xformers_is_optional
              no_xformers "sd15.safetensors" fresh_minified
              [("_class_name", "PNDMScheduler")]
              eq_refl eq_refl eq_refl eq_refl
              (fun _ => eq_refl) (fun _ => eq_refl) (fun _ _ => eq_refl))
    as (p & Ho & _ & Hxf & _).
  exists p. split; [exact Ho |].
  destruct (xformers p); [| reflexivity].
  assert (E : enable_xformers_memory_efficient_attention
                no_xformers
                (mkPipeline StableDiffusionPipeline
                   (joinpath no_xformers
                      (Mini.checkpoints_dir fresh_minified)
                      "sd15.safetensors")
                   (DPMSolverMultistepScheduler
                      [("_class_name", "PNDMScheduler")] true
                      (Some "dpmsolver++")) true true false cpu) = None)
    by (apply Hxf; reflexivity).
  discriminate E.
Defined.

(** ** Generating *)

(** X10: with a model loaded, the pipeline call gets the prompt as typed,
    the empty prompt included, and the negative prompt as typed, except
    that an empty negative prompt is passed as [None]. *)
Theorem X10_prompts_reach_engine w pr np st g wd h seed s p q a :
  App.pipeline s = Bound (Some p) ->
  In (q, a)
     (pipeline_calls
        (events (App.generate_image_interface w pr np st g wd h seed s))) ->
  arg_prompt a = pr /\
  (np = "" -> arg_negative_prompt a = None) /\
  (np <> "" -> arg_negative_prompt a = Some np).
Proof.
  intros Hp Hq. rewrite generate_image_interface_eq in Hq.
  destruct (generate_image_loaded w pr np st g wd h seed s p Hp)
    as (_ & _ & Hm).
  destruct (manual_seed w (App.device s) (resolved_seed w seed)).
  - destruct Hm as [_ Hc]. rewrite Hc in Hq. destruct Hq.
  - destruct Hm as [Hc _]. rewrite Hc in Hq.
    destruct Hq as [E | []]. inversion E; subst q a. cbn.
    split; [reflexivity |]. split.
    + intros ->. reflexivity.
    + intros Hn. destruct np; [contradiction | reflexivity].
Qed.

Lemma X10_prompts_reach_engine_witness :
  arg_prompt (mkPipelineArgs "" None 25 (15 # 2) 512 512
                             (mkGenerator cuda 7)) = "" /\
  arg_negative_prompt (mkPipelineArgs "" None 25 (15 # 2) 512 512
                                      (mkGenerator cuda 7)) = None.
Proof.
  destruct (X10_prompts_reach_engine
              calm "" "" 25 (15 # 2) 512 512 7 loaded_generator
              sd15_pipeline sd15_pipeline
              (mkPipelineArgs "" None 25 (15 # 2) 512 512
                              (mkGenerator cuda 7))
              eq_refl (or_introl eq_refl)) as (Ha & Hb & _).
  split; [exact Ha | apply Hb; reflexivity].
Defined.

(** X11: when the pipeline call returns without any image, taking the
    first image fails inside the [try]: the generate returns no image and
    the message of the index error, and the model stays loaded. *)
Theorem X11_no_image_is_reported w pr np st g wd h seed s p :
  App.pipeline s = Bound (Some p) ->
  manual_seed w (App.device s) (resolved_seed w seed) = None ->
  call_pipeline w p
    (mkPipelineArgs pr (App.negative_prompt_or_None np) st g wd h
                    (mkGenerator (App.device s) (resolved_seed w seed))) =
  Returns [] ->
  App.generate_image_interface w pr np st g wd h seed s =
  (Returns (None, "Error generating image: list index out of range"), s,
   events (App.generate_image w pr np st g wd h seed s)).
Proof.
  intros Hp Hs Hc. rewrite generate_image_interface_eq.
  destruct (generate_image_loaded w pr np st g wd h seed s p Hp)
    as (_ & _ & Hm).
  rewrite Hs, Hc in Hm. destruct Hm as [_ Ho].
  pose proof (generate_image_keeps_self w pr np st g wd h seed s) as Hk.
  destruct (App.generate_image w pr np st g wd h seed s) as [[o s1] l1].
  cbn in *. subst. reflexivity.
Qed.

Lemma X11_no_image_is_reported_witness :
  outcome (App.generate_image_interface no_images "a cat" "" 25 (15 # 2)
                                        512 512 7 loaded_generator) =
  Returns (None, "Error generating image: list index out of range").
Proof.
  rewrite (X11_no_image_is_reported
             no_images "a cat" "" 25 (15 # 2) 512 512 7 loaded_generator
             sd15_pipeline eq_refl eq_refl eq_refl).
  reflexivity.
Defined.

(** X12: the status line tells the truth about a load: it is the success
    line exactly when [load_model] returned a handle, and then the generator
    holds that handle, fully initialised, under the name loaded; every other
    status line comes with no handle. *)
Theorem X12_status_line_is_truthful w name type s message s' l :
  App.load_model_interface w name type s = (Returns message, s', l) ->
  (message = "Successfully loaded " ++ name ->
   exists p,
     outcome (App.load_model w name type s) = Returns (Some p, message) /\
     App.pipeline s' = Bound (Some p) /\
     fully_initialized s' p = true /\
     App.current_model s' = Some name) /\
  (message <> "Successfully loaded " ++ name ->
   outcome (App.load_model w name type s) = Returns (None, message)).
Proof.
  intros H.
  assert (Hi : exists handle l0,
             App.load_model w name type s =
             (Returns (handle, message), s', l0)).
  { revert H. unfold App.load_model_interface, bind, ret.
    destruct (App.load_model w name type s) as [[[[hd m] | e] s1] l1];
      intros H; [| discriminate].
    inversion H; subst. eauto. }
  destruct Hi as (handle & l0 & Hl).
  assert (Hcases : handle = None /\
                   message <> "Successfully loaded " ++ name \/
                   exists p, handle = Some p /\
                             message = "Successfully loaded " ++ name).
  { clear H. revert Hl. run_method; intros Hl; try discriminate;
      inversion Hl; subst;
      try (left; split; [reflexivity | cbn; discriminate]);
      right; eexists; split; reflexivity. }
  destruct Hcases as [[Hn Hm] | (p & Hs & Hm)]; subst handle.
  - split; [intros E; contradiction |].
    intros _. rewrite Hl. reflexivity.
  - split; [| intros E; contradiction].
    intros _. exists p.
    destruct (load_model_success _ _ _ _ _ _ _ _ Hl)
      as (cls & kw & native & _ & Hp & Hst & _ & _).
    rewrite Hl. split; [reflexivity |].
    assert (Hh : App.pipeline s' = Bound (Some p))
      by (rewrite Hst; reflexivity).
    assert (Hcm : App.current_model s' = Some name)
      by (rewrite Hst; reflexivity).
    split; [exact Hh |]. split; [| exact Hcm].
    rewrite Hp at 1. unfold fully_initialized. cbn.
    rewrite Hst. cbn. apply Device_eqb_refl.
Qed.

Lemma X12_status_line_is_truthful_witness :
  exists p,
    outcome (App.load_model calm "sd15" "SD1.5" fresh_generator) =
    Returns (Some p, "Successfully loaded sd15") /\
    App.pipeline loaded_generator = Bound (Some p).
Proof.
  destruct (X12_status_line_is_truthful
              calm "sd15" "SD1.5" fresh_generator "Successfully loaded sd15"
              loaded_generator
              (events (App.load_model_interface calm "sd15" "SD1.5"
                                                fresh_generator))
              eq_refl) as [Hs _].
  destruct (Hs eq_refl) as (p & Ho & Hh & _).
  exists p. split; assumption.
Defined.

(** * The listings of the forms *)

Lemma string_leb_iff (a b : string) :
  String.leb a b = true <-> a = b \/ String_as_OT.lt a b.
Proof.
  unfold String.leb.
  destruct (String.compare a b) eqn:E.
  - apply String_as_OT.cmp_eq in E. intuition.
  - apply String_as_OT.cmp_lt in E. intuition.
  - split; [discriminate |].
    intros [-> | H].
    + assert (String.compare b b = Eq) by (now apply String_as_OT.cmp_eq).
      congruence.
    + apply String_as_OT.cmp_lt in H. unfold String_as_OT.cmp in H.
      congruence.
Qed.

Lemma string_leb_trans (a b c : string) :
  String.leb a b = true -> String.leb b c = true -> String.leb a c = true.
Proof.
  rewrite !string_leb_iff.
  intros [-> | H1] [-> | H2]; auto.
  right. eapply String_as_OT.lt_trans; eassumption.
Qed.

Lemma insert_sorted_perm x l : Permutation (x :: l) (insert_sorted x l).
Proof.
  induction l as [| y l IH]; cbn; [reflexivity |].
  destruct (String.leb x y); [reflexivity |].
  rewrite perm_swap. now apply perm_skip.
Qed.

Lemma sorted_perm l : Permutation l (sorted l).
Proof.
  induction l as [| x l IH]; cbn; [constructor |].
  rewrite <- insert_sorted_perm. now apply perm_skip.
Qed.

Lemma insert_sorted_Sorted x l :
  Sorted string_le l -> Sorted string_le (insert_sorted x l).
Proof.
  induction l as [| y l IH]; intros Hs; cbn.
  - repeat constructor.
  - destruct (String.leb x y) eqn:E.
    + constructor; [exact Hs | constructor; exact E].
    + apply Sorted_inv in Hs. destruct Hs as [Hs Hhd].
      constructor; [apply IH; exact Hs |].
      assert (Hyx : string_le y x).
      { destruct (String.leb_total x y) as [H | H]; [congruence | exact H]. }
      destruct l as [| z l]; cbn.
      * constructor. exact Hyx.
      * destruct (String.leb x z); constructor; [exact Hyx |].
        now inversion Hhd.
Qed.

Lemma sorted_Sorted l : Sorted string_le (sorted l).
Proof.
  induction l as [| x l IH]; cbn; [constructor |].
  now apply insert_sorted_Sorted.
Qed.

Lemma sorted_head_least l n rest :
  sorted l = n :: rest -> forall m, In m l -> string_le n m.
Proof.
  intros E m Hm.
  assert (Hin : In m (n :: rest)).
  { rewrite <- E. eapply Permutation_in; [apply sorted_perm | exact Hm]. }
  assert (Hss : StronglySorted string_le (n :: rest)).
  { rewrite <- E. apply Sorted_StronglySorted; [| apply sorted_Sorted].
    intros a b c. apply string_leb_trans. }
  destruct Hin as [<- | Hin].
  - unfold string_le. destruct (String.leb_total n n); assumption.
  - apply StronglySorted_inv in Hss. destruct Hss as [_ Hall].
    rewrite Forall_forall in Hall. now apply Hall.
Qed.

(** X13: [get_available_models] offers the subdirectories of the model
    directory and nothing else: the list is empty exactly when the
    directory is missing; otherwise every subdirectory is in it, and every
    name in it other than "No models found" is a subdirectory, plain files
    being left out. *)
Theorem X13_models_are_the_subdirectories d s l :
  AppListing.get_available_models d s = Returns l ->
  (l = [] <-> disk_exists d (App.model_path s) = false) /\
  (disk_exists d (App.model_path s) = true ->
   exists entries,
     disk_iterdir d (App.model_path s) = Returns entries /\
     (forall e, In e entries -> entry_is_dir e = true ->
                In (entry_name e) l) /\
     (forall n, In n l -> n <> "No models found" ->
                exists e, In e entries /\ entry_is_dir e = true /\
                          entry_name e = n)).
Proof.
  unfold AppListing.get_available_models.
  destruct (disk_exists d (App.model_path s)); cbn.
  - destruct (disk_iterdir d (App.model_path s)) as [entries | e];
      [| discriminate].
    intros H. inversion H as [Hl]. clear H.
    assert (Hname : forall n,
               In n (map entry_name (filter entry_is_dir entries)) <->
               exists e, In e entries /\ entry_is_dir e = true /\
                         entry_name e = n).
    { intros n. rewrite in_map_iff. split.
      - intros (e & He & Hin). apply filter_In in Hin.
        exists e. tauto.
      - intros (e & Hin & Hd & He). exists e. rewrite filter_In. tauto. }
    destruct (map entry_name (filter entry_is_dir entries)) as [| m ms] eqn:E.
    + split; [split; discriminate |].
      intros _. exists entries. split; [reflexivity |]. split.
      * intros e Hin Hd. exfalso.
        assert (Hi : In (entry_name e) []) by (apply Hname; eauto).
        destruct Hi.
      * intros n [<- | []] Hn. contradiction.
    + split; [split; discriminate |].
      intros _. exists entries. split; [reflexivity |]. split.
      * intros e Hin Hd. apply Hname. eauto.
      * intros n Hin _. apply Hname. exact Hin.
  - intros H. inversion H. split; [tauto | discriminate].
Qed.

Lemma X13_models_are_the_subdirectories_witness :
  AppListing.get_available_models sample_disk fresh_generator =
  Returns ["sdxl-base"] /\
  (["sdxl-base"] = [] <->
   disk_exists sample_disk (App.model_path fresh_generator) = false).
Proof.
  split; [reflexivity |].
  apply (X13_models_are_the_subdirectories
           sample_disk fresh_generator ["sdxl-base"] eq_refl).
Defined.

(** X14: the model preselected in the form is the first subdirectory of
    the model directory, and there is none when the directory is missing or
    has no subdirectory, or when that first subdirectory is itself called
    "No models found". *)
Theorem X14_preselected_model d s l n :
  AppListing.get_available_models d s = Returns l ->
  (AppListing.model_dropdown_value l = Some n <->
   disk_exists d (App.model_path s) = true /\
   exists entries,
     disk_iterdir d (App.model_path s) = Returns entries /\
     hd_error (map entry_name (filter entry_is_dir entries)) = Some n /\
     n <> "No models found").
Proof.
  unfold AppListing.get_available_models, AppListing.model_dropdown_value.
  destruct (disk_exists d (App.model_path s)); cbn.
  - destruct (disk_iterdir d (App.model_path s)) as [entries | e];
      [| discriminate].
    intros H. inversion H as [Hl]. clear H.
    set (names := map entry_name (filter entry_is_dir entries)) in *.
    assert (Hr : (true = true /\
                  exists en,
                    Returns entries = Returns en /\
                    hd_error (map entry_name (filter entry_is_dir en)) =
                    Some n /\ n <> "No models found") <->
                 hd_error names = Some n /\ n <> "No models found").
    { split.
      - intros (_ & en & Hen & Hhd & Hn). inversion Hen; subst en. tauto.
      - intros [Hhd Hn]. split; [reflexivity |]. exists entries. tauto. }
    rewrite Hr. clear Hr Hl.
    destruct names as [| m ms]; cbn.
    + split; [discriminate | intros [Hhd _]; discriminate].
    + destruct (String.eqb_spec m "No models found") as [-> | Hne]; cbn.
      * split; [discriminate | intros [Hhd Hn]; congruence].
      * split.
        -- intros E. inversion E; subst m. tauto.
        -- intros [Hhd _]. congruence.
  - intros H. inversion H. cbn. split; [discriminate |].
    intros [Hf _]. discriminate.
Qed.

Lemma X14_preselected_model_witness :
  AppListing.model_dropdown_value ["sdxl-base"] = Some "sdxl-base" <->
  disk_exists sample_disk (App.model_path fresh_generator) = true /\
  exists entries,
    disk_iterdir sample_disk (App.model_path fresh_generator) =
    Returns entries /\
    hd_error (map entry_name (filter entry_is_dir entries)) =
    Some "sdxl-base" /\
    "sdxl-base" <> "No models found".
Proof.
  apply (X14_preselected_model sample_disk fresh_generator ["sdxl-base"]
                               "sdxl-base" eq_refl).
Defined.

(** X15: when the checkpoint directory holds files ending in
    [".safetensors"], [get_available_checkpoints] returns exactly those
    names, each as often as it is listed, in ascending order; other files
    and directories are left out. *)
Theorem X15_checkpoints_are_sorted_matches d s :
  disk_exists d (Mini.checkpoints_dir s) = true ->
  glob_safetensors d (Mini.checkpoints_dir s) <> [] ->
  let l := MinifiedListing.get_available_checkpoints d s in
  Permutation (glob_safetensors d (Mini.checkpoints_dir s)) l /\
  Sorted string_le l /\
  Forall (fun n => endswith n ".safetensors" = true) l.
Proof.
  intros Hx Hne l. subst l.
  unfold MinifiedListing.get_available_checkpoints. rewrite Hx. cbn.
  destruct (glob_safetensors d (Mini.checkpoints_dir s)) as [| m ms] eqn:E;
    [contradiction |].
  split; [apply sorted_perm |]. split; [apply sorted_Sorted |].
  rewrite Forall_forall. intros n Hn.
  assert (Hin : In n (m :: ms)).
  { eapply Permutation_in; [symmetry; apply sorted_perm | exact Hn]. }
  rewrite <- E in Hin. unfold glob_safetensors in Hin.
  destruct (disk_iterdir d (Mini.checkpoints_dir s)); [| destruct Hin].
  apply filter_In in Hin. tauto.
Qed.

Lemma X15_checkpoints_are_sorted_matches_witness :
  MinifiedListing.get_available_checkpoints sample_disk fresh_minified =
  ["dreamshaper_8.safetensors"; "sd15.safetensors"] /\
  Sorted string_le
         (MinifiedListing.get_available_checkpoints sample_disk
                                                    fresh_minified).
Proof.
  split; [reflexivity |].
  apply (X15_checkpoints_are_sorted_matches sample_disk fresh_minified);
    [reflexivity | discriminate].
Defined.

(** X16: the checkpoint preselected in the minified form is the least of
    the checkpoint files in the directory: it ends in [".safetensors"] and
    no checkpoint file there comes before it. *)
Theorem X16_preselected_checkpoint_is_least d s n :
  MinifiedListing.checkpoint_dropdown_value
    (MinifiedListing.get_available_checkpoints d s) = Some n ->
  In n (glob_safetensors d (Mini.checkpoints_dir s)) /\
  endswith n ".safetensors" = true /\
  forall m, In m (glob_safetensors d (Mini.checkpoints_dir s)) ->
            string_le n m.
Proof.
  unfold MinifiedListing.get_available_checkpoints,
         MinifiedListing.checkpoint_dropdown_value.
  destruct (disk_exists d (Mini.checkpoints_dir s)); cbn; [| discriminate].
  destruct (glob_safetensors d (Mini.checkpoints_dir s)) as [| m ms] eqn:E;
    [cbn; discriminate |].
  destruct (sorted (m :: ms)) as [| first rest] eqn:Es; [discriminate |].
  destruct (String.eqb first "No checkpoints found"); cbn; [discriminate |].
  intros H. inversion H; subst first.
  assert (Hin : In n (m :: ms)).
  { eapply Permutation_in; [symmetry; apply sorted_perm |].
    rewrite Es. now left. }
  split; [exact Hin |]. split.
  - rewrite <- E in Hin. unfold glob_safetensors in Hin.
    destruct (disk_iterdir d (Mini.checkpoints_dir s)); [| destruct Hin].
    apply filter_In in Hin. tauto.
  - intros k Hk. eapply sorted_head_least; eassumption.
Qed.

Lemma X16_preselected_checkpoint_is_least_witness :
  In "dreamshaper_8.safetensors"
     (glob_safetensors sample_disk (Mini.checkpoints_dir fresh_minified)) /\
  string_le "dreamshaper_8.safetensors" "sd15.safetensors".
Proof.
  destruct (X16_preselected_checkpoint_is_least
              sample_disk fresh_minified "dreamshaper_8.safetensors"
              eq_refl) as (Hin & _ & Hle).
  split; [exact Hin |]. apply Hle. cbn. auto.
Defined.

(** X17: what the minified downloader saves, the minified form finds:
    every file name in [CHECKPOINT_MODELS] ends in [".safetensors"], so a
    downloaded checkpoint that the directory lists is among the available
    checkpoints. *)
Theorem X17_downloaded_checkpoints_are_listed d s key info entries is_dir :
  In (key, info) MinifiedDownload.CHECKPOINT_MODELS ->
  disk_exists d (Mini.checkpoints_dir s) = true ->
  disk_iterdir d (Mini.checkpoints_dir s) = Returns entries ->
  In (mkDirEntry (MinifiedDownload.name info) is_dir) entries ->
  In (MinifiedDownload.name info)
     (MinifiedListing.get_available_checkpoints d s).
Proof.
  intros Hk Hx Hl Hin.
  assert (He : endswith (MinifiedDownload.name info) ".safetensors" = true).
  { cbn in Hk. decompose [or] Hk;
      try match goal with H : (_, _) = (_, _) |- _ =>
            inversion H; subst; reflexivity end.
    contradiction. }
  assert (Hg : In (MinifiedDownload.name info)
                  (glob_safetensors d (Mini.checkpoints_dir s))).
  { unfold glob_safetensors. rewrite Hl. apply filter_In. split; [| exact He].
    apply in_map_iff. eexists. split; [| exact Hin]. reflexivity. }
  unfold MinifiedListing.get_available_checkpoints. rewrite Hx. cbn.
  destruct (glob_safetensors d (Mini.checkpoints_dir s)) as [| m ms] eqn:E;
    [destruct Hg |].
  eapply Permutation_in; [apply sorted_perm | exact Hg].
Qed.

Lemma X17_downloaded_checkpoints_are_listed_witness :
  In "dreamshaper_8.safetensors"
     (MinifiedListing.get_available_checkpoints sample_disk fresh_minified).
Proof.
  apply (X17_downloaded_checkpoints_are_listed
           sample_disk fresh_minified "dreamshaper"
           (MinifiedDownload.mkCheckpointInfo
              "Lykon/DreamShaper" "dreamshaper_8.safetensors"
              "dreamshaper_8.safetensors" "SD1.5")
           [mkDirEntry "sd15.safetensors" false;
            mkDirEntry "notes.txt" false;
            mkDirEntry "dreamshaper_8.safetensors" false;
            mkDirEntry "sdxl-base" true] false).
  - cbn. auto.
  - reflexivity.
  - reflexivity.
  - cbn. auto.
Defined.

(** * The download scripts *)

(** ** Strings *)

Lemma split_structure sep s :
  exists pieces last_one,
    split sep s = (pieces ++ [last_one])%list /\
    contains_char sep last_one = false /\
    s = fold_right (fun piece text => piece ++ String sep text) last_one
                   pieces.
Proof.
  induction s as [| c rest (pieces & last_one & Hs & Hc & Ht)].
  - exists [], "". repeat split.
  - cbn [split]. destruct (Ascii.eqb_spec c sep) as [-> | Hne].
    + exists ("" :: pieces), last_one. rewrite Hs. repeat split; auto.
      cbn. now rewrite <- Ht.
    + rewrite Hs. destruct pieces as [| p ps]; cbn.
      * exists [], (String c last_one). repeat split.
        -- cbn. rewrite Hc. apply Ascii.eqb_neq in Hne. now rewrite Hne.
        -- cbn in Ht. now rewrite Ht.
      * exists (String c p :: ps), last_one. repeat split; auto.
        cbn in *. now rewrite Ht.
Qed.

Lemma last_piece_split sep s :
  contains_char sep (last_piece (split sep s)) = false /\
  exists before,
    s = before ++ last_piece (split sep s) /\
    (before = "" \/ exists b, before = b ++ String sep "").
Proof.
  destruct (split_structure sep s) as (pieces & last_one & Hs & Hc & Ht).
  assert (Hl : last_piece (split sep s) = last_one).
  { unfold last_piece. rewrite Hs. apply last_last. }
  rewrite Hl. split; [exact Hc |].
  clear Hs Hl Hc. revert s Ht.
  induction pieces as [| p ps IH]; intros s Ht; cbn in Ht.
  - exists "". split; [exact Ht | now left].
  - destruct (IH _ eq_refl) as (before & Hb & Hend).
    assert (Happ : forall a b c : string, (a ++ b) ++ c = a ++ b ++ c).
    { intros a b c. induction a as [| x a IHa]; cbn; [reflexivity |].
      now rewrite IHa. }
    exists (p ++ String sep before). split.
    + rewrite Ht. rewrite Hb at 1. rewrite Happ. reflexivity.
    + right. destruct Hend as [-> | (b & ->)].
      * exists p. reflexivity.
      * exists (p ++ String sep b). rewrite Happ. reflexivity.
Qed.

Lemma lower_is_y response :
  String.eqb (lower response) "y" = true <->
  response = "y" \/ response = "Y".
Proof.
  rewrite String.eqb_eq.
  destruct response as [| c [| c2 rest]]; cbn.
  - split; [discriminate | intros [H | H]; discriminate].
  - split.
    + intros H. inversion H as [Hc]. clear H.
      destruct c as [[] [] [] [] [] [] [] []]; cbn in Hc;
        try discriminate; auto.
    + intros [H | H]; inversion H; reflexivity.
  - split; [discriminate | intros [H | H]; discriminate].
Qed.

(** ** download_models.py *)

(** X18: a key that is not in [MODELS] is taken as a repository id and
    stored under its last piece: the directory name has no slash and is
    what follows the last slash of the id (the whole id when it has none),
    and with that directory not yet there the run downloads that repository
    into it, once. *)
Theorem X18_custom_repository_target h key dir token stdin :
  let model_name := last_piece (split "/" key) in
  let local_dir := host_joinpath h (host_path h dir) model_name in
  let run := DownloadModels.download_model h key dir token stdin in
  dict_get DownloadModels.MODELS key = None ->
  host_mkdir h (host_path h dir) = None ->
  host_exists h local_dir = false ->
  contains_char "/" model_name = false /\
  (exists before,
     key = before ++ model_name /\
     (before = "" \/ exists b, before = b ++ "/")) /\
  downloads_of (actions run) = [(key, local_dir)] /\
  In (ActSnapshotDownload key local_dir false token
                          DownloadModels.ignore_patterns) (actions run) /\
  answer run = Returns tt.
Proof.
  intros model_name local_dir run Hk Hm Hx.
  destruct (last_piece_split "/" key) as [Hc Hb].
  split; [exact Hc |]. split; [exact Hb |].
  subst run local_dir model_name. unfold_script. cbn -[dict_get].
  rewrite Hm. cbn -[dict_get]. rewrite Hk. cbn. rewrite Hx. cbn.
  destruct (host_snapshot_download h key _ token); cbn;
    repeat split; auto 10.
Qed.

Lemma X18_custom_repository_target_witness :
  downloads_of
    (actions (DownloadModels.download_model
                clean_host "org/custom-model" "./models" None [])) =
  [("org/custom-model", "models/custom-model")].
Proof.
  destruct (X18_custom_repository_target
              clean_host "org/custom-model" "./models" None []
              eq_refl eq_refl eq_refl) as (_ & _ & Hd & _).
  exact Hd.
Defined.

(** X19: a model that is already on disk is downloaded again only on the
    answer [y] or [Y]: the run asks once, and with any other answer it
    downloads nothing; with no answer to read it ends in [EOFError]. *)
Theorem X19_existing_model_needs_consent h key dir token response rest :
  let local_dir :=
    host_joinpath h (host_path h dir) (model_directory_name key) in
  let run := DownloadModels.download_model h key dir token
                                           (response :: rest) in
  host_mkdir h (host_path h dir) = None ->
  host_exists h local_dir = true ->
  In (ActInput "Do you want to re-download? (y/n): ") (actions run) /\
  (downloads_of (actions run) = [] <-> response <> "y" /\ response <> "Y") /\
  (response = "y" \/ response = "Y" ->
   downloads_of (actions run) =
   [(match dict_get DownloadModels.MODELS key with
     | Some model_info => DownloadModels.repo_id model_info
     | None => key
     end, local_dir)]) /\
  answer run = Returns tt /\
  exists e,
    answer (DownloadModels.download_model h key dir token []) = Raises e /\
    exn_class e = "EOFError".
Proof.
  intros local_dir run Hm Hx. subst run local_dir.
  unfold model_directory_name in *.
  assert (Hy : forall b : bool,
             (b = true <-> response = "y" \/ response = "Y") ->
             (negb b = true <-> response <> "y" /\ response <> "Y")).
  { intros b Hb. destruct b; cbn.
    - split; [discriminate |]. intros [H1 H2].
      destruct (proj1 Hb eq_refl); contradiction.
    - split; [| reflexivity]. intros _.
      split; intros E; assert (false = true) by (apply Hb; auto);
        discriminate. }
  pose proof (Hy _ (lower_is_y response)) as Hn. clear Hy.
  pose proof (lower_is_y response) as Hyes.
  unfold_script. cbn -[dict_get]. rewrite Hm. cbn -[dict_get].
  destruct (dict_get DownloadModels.MODELS key) as [info |]; cbn;
    rewrite Hx; cbn;
    destruct (String.eqb (lower response) "y"); cbn in *;
    try destruct (host_snapshot_download h _ _ token); cbn;
    (split; [auto 10 |]);
    (split; [split; [intros E; try discriminate E; apply Hn; reflexivity
                    | intros E; try reflexivity; apply Hn in E;
                      discriminate E] |]);
    (split; [intros E; try reflexivity; apply Hyes in E; discriminate E |]);
    (split; [reflexivity |]); eexists; split; reflexivity.
Qed.

Lemma X19_existing_model_needs_consent_witness :
  downloads_of
    (actions (DownloadModels.download_model full_host "sd15" "./models"
                                            None ["yes"])) = [] /\
  downloads_of
    (actions (DownloadModels.download_model full_host "sd15" "./models"
                                            None ["Y"])) =
  [("runwayml/stable-diffusion-v1-5", "models/stable-diffusion-v1-5")].
Proof.
  destruct (X19_existing_model_needs_consent
              full_host "sd15" "./models" None "yes" [] eq_refl eq_refl)
    as (_ & Hno & _).
  destruct (X19_existing_model_needs_consent
              full_host "sd15" "./models" None "Y" [] eq_refl eq_refl)
    as (_ & _ & Hyes & _).
  split.
  - apply Hno. split; discriminate.
  - apply Hyes. now right.
Defined.

(** X20: a failed download does not end the script: once the directory
    could be made, [download_model] returns whatever the network answers,
    provided there is an answer to read if it has to ask; and when the
    download raises, the run prints the error text and the five lines on
    authentication, nothing after them. *)
Theorem X20_download_failure_is_reported h key dir token stdin e :
  let local_dir :=
    host_joinpath h (host_path h dir) (model_directory_name key) in
  let run := DownloadModels.download_model h key dir token stdin in
  host_mkdir h (host_path h dir) = None ->
  (host_exists h local_dir = false \/ stdin <> []) ->
  answer run = Returns tt /\
  (host_exists h local_dir = false ->
   (forall repo_id, host_snapshot_download h repo_id local_dir token =
                    Some e) ->
   exists header,
     printed (actions run) =
     header ::
     ("Downloading to: " ++ local_dir) ::
     "This may take a while depending on your internet connection..." ::
     ("❌ Error downloading model: " ++ str_exn e) ::
     authentication_help).
Proof.
  intros local_dir run Hm Hcond. subst run local_dir.
  unfold model_directory_name in *.
  unfold_script. cbn -[dict_get]. rewrite Hm. cbn -[dict_get].
  destruct (dict_get DownloadModels.MODELS key) as [info |]; cbn;
    destruct (host_exists h _) eqn:Hx; cbn.
  - destruct stdin as [| response rest]; [destruct Hcond; congruence |].
    cbn. split; [| discriminate].
    destruct (String.eqb (lower response) "y"); cbn; [| reflexivity].
    destruct (host_snapshot_download h _ _ token); reflexivity.
  - split.
    + destruct (host_snapshot_download h _ _ token); reflexivity.
    + intros _ He. rewrite He. cbn. eexists. reflexivity.
  - destruct stdin as [| response rest]; [destruct Hcond; congruence |].
    cbn. split; [| discriminate].
    destruct (String.eqb (lower response) "y"); cbn; [| reflexivity].
    destruct (host_snapshot_download h _ _ token); reflexivity.
  - split.
    + destruct (host_snapshot_download h _ _ token); reflexivity.
    + intros _ He. rewrite He. cbn. eexists. reflexivity.
Qed.

Lemma X20_download_failure_is_reported_witness :
  answer (DownloadModels.download_model offline_host "sdxl" "./models"
                                        None []) = Returns tt /\
  exists header,
    printed (actions (DownloadModels.download_model
                        offline_host "sdxl" "./models" None [])) =
    header ::
    "Downloading to: models/stable-diffusion-xl-base-1.0" ::
    "This may take a while depending on your internet connection..." ::
    "❌ Error downloading model: network unreachable" ::
    authentication_help.
Proof.
  destruct (X20_download_failure_is_reported
              offline_host "sdxl" "./models" None []
              (mkExn "ConnectionError" "network unreachable")
              eq_refl (or_introl eq_refl)) as [Ha Hp].
  split; [exact Ha |].
  apply Hp; reflexivity.
Defined.

(** X21: [main] touches neither the disk, nor the network, nor standard
    input unless it is asked to download: with [--list], whatever else is
    given, and with neither [--all] nor a model (none, or the empty
    string), it only prints and returns. *)
Theorem X21_main_only_prints_without_a_request h args stdin :
  (args_list_or_nothing_to_do args = true) ->
  let run := DownloadModels.main h args stdin in
  forallb is_print (actions run) = true /\
  downloads_of (actions run) = [] /\
  run = (Returns tt, stdin, actions run).
Proof.
  intros Hc. unfold args_list_or_nothing_to_do in Hc. cbv zeta.
  unfold DownloadModels.main.
  destruct (DownloadModels.args_list args); [vm_compute; auto |].
  destruct (DownloadModels.args_all args); [discriminate |].
  destruct (DownloadModels.args_model args) as [[| c m] |];
    try discriminate; vm_compute; auto.
Qed.

Lemma X21_main_only_prints_without_a_request_witness :
  downloads_of
    (actions (DownloadModels.main
                clean_host
                (DownloadModels.mkArgs (Some "sd15") true None "./models"
                                       true) [])) = [].
Proof.
  destruct (X21_main_only_prints_without_a_request
              clean_host
              (DownloadModels.mkArgs (Some "sd15") true None "./models" true)
              [] eq_refl) as (_ & Hd & _).
  exact Hd.
Defined.

(** X22: with [--all] and none of the models on disk yet, [main] asks for
    every model of the table, each once, in the order of the table and into
    the directory of its name, whether the downloads before it worked or
    failed, reads no input, and ends with the line that all downloads have
    completed. *)
Theorem X22_all_downloads_are_attempted h args stdin :
  let dir := host_path h (DownloadModels.args_models_dir args) in
  let run := DownloadModels.main h args stdin in
  DownloadModels.args_list args = false ->
  DownloadModels.args_all args = true ->
  host_mkdir h dir = None ->
  (forall name, host_exists h (host_joinpath h dir name) = false) ->
  downloads_of (actions run) =
  map (fun item =>
         (DownloadModels.repo_id (snd item),
          host_joinpath h dir (DownloadModels.name (snd item))))
      DownloadModels.MODELS /\
  run = (Returns tt, stdin, actions run) /\
  last (printed (actions run)) "" = LF ++ "✨ All downloads completed!".
Proof.
  intros dir run Hl Ha Hm Hx. subst run dir.
  unfold DownloadModels.main. rewrite Hl, Ha.
  unfold_script. cbn. rewrite !Hm. cbn. rewrite !Hx. cbn.
  repeat case_step; repeat split.
Qed.

Lemma X22_all_downloads_are_attempted_witness :
  downloads_of
    (actions (DownloadModels.main
                offline_host
                (DownloadModels.mkArgs None false None "./models" true)
                [])) =
  [("runwayml/stable-diffusion-v1-5", "models/stable-diffusion-v1-5");
   ("stabilityai/stable-diffusion-2-1", "models/stable-diffusion-2-1");
   ("stabilityai/stable-diffusion-xl-base-1.0",
    "models/stable-diffusion-xl-base-1.0");
   ("Lykon/DreamShaper", "models/dreamshaper");
   ("SG161222/Realistic_Vision_V5.1_noVAE", "models/realistic-vision-v5")].
Proof.
  destruct (X22_all_downloads_are_attempted
              offline_host
              (DownloadModels.mkArgs None false None "./models" true) []
              eq_refl eq_refl eq_refl (fun _ => eq_refl)) as (Hd & _).
  exact Hd.
Defined.

(** ** minified_download.py *)

(** X23: [download_checkpoint] knows only the keys of its table: for any
    other key it makes the checkpoint directory, prints the key and the
    list of known keys, and stops: no download, no question, no
    exception. *)
Theorem X23_unknown_checkpoint_key h key dir token stdin :
  dict_get MinifiedDownload.CHECKPOINT_MODELS key = None ->
  host_mkdir h (host_path h dir) = None ->
  MinifiedDownload.download_checkpoint h key dir token stdin =
  (Returns tt, stdin,
   [ActMkdir (host_path h dir);
    ActPrint ("❌ Unknown model key: " ++ key);
    ActPrint "Available models: ['sd15', 'sd15-full', 'dreamshaper', 'realistic-vision', 'anything-v4']"]).
Proof.
  intros Hk Hm. unfold_script. cbn -[dict_get].
  rewrite Hm. cbn -[dict_get]. rewrite Hk. reflexivity.
Qed.

Lemma X23_unknown_checkpoint_key_witness :
  downloads_of
    (actions (MinifiedDownload.download_checkpoint
                clean_host "runwayml/stable-diffusion-v1-5" "./checkpoints"
                None [])) = [].
Proof.
  rewrite (X23_unknown_checkpoint_key
             clean_host "runwayml/stable-diffusion-v1-5" "./checkpoints"
             None [] eq_refl eq_refl).
  reflexivity.
Defined.

(** X24: after the download of a known checkpoint that is not yet on
    disk, the file is renamed to the name of the table exactly when the
    downloaded file has another name, and then to the path that was checked
    and announced; the download itself asks for the file name of the
    repository. *)
Theorem X24_rename_only_when_names_differ
        h key dir token stdin info downloaded_path :
  let checkpoints_path := host_path h dir in
  let local_path :=
    host_joinpath h checkpoints_path (MinifiedDownload.name info) in
  let run := MinifiedDownload.download_checkpoint h key dir token stdin in
  dict_get MinifiedDownload.CHECKPOINT_MODELS key = Some info ->
  host_mkdir h checkpoints_path = None ->
  host_exists h local_path = false ->
  host_hf_hub_download h (MinifiedDownload.repo_id info)
                       (MinifiedDownload.filename info) token
                       checkpoints_path = Returns downloaded_path ->
  downloads_of (actions run) =
  [(MinifiedDownload.repo_id info, MinifiedDownload.filename info)] /\
  (In (ActRename downloaded_path local_path) (actions run) <->
   host_basename h downloaded_path <> MinifiedDownload.name info) /\
  (forall source target,
     In (ActRename source target) (actions run) ->
     source = downloaded_path /\ target = local_path) /\
  answer run = Returns tt.
Proof.
  intros checkpoints_path local_path run Hk Hm Hx Hd.
  subst run local_path checkpoints_path.
  unfold_script. cbn -[dict_get]. rewrite Hm. cbn -[dict_get].
  rewrite Hk. cbn. rewrite Hx. cbn. rewrite Hd. cbn.
  destruct (String.eqb_spec (host_basename h downloaded_path)
                            (MinifiedDownload.name info)) as [He | Hne];
    cbn.
  - destruct (host_size_gb h _); cbn; repeat split;
      intros; try congruence;
      match goal with
      | H : _ \/ _ |- _ =>
          decompose [or] H; try discriminate; contradiction
      end.
  - destruct (host_rename h downloaded_path _); cbn;
      try destruct (host_size_gb h _); cbn; repeat split; auto 10;
      intros;
      match goal with
      | H : _ \/ _ |- _ =>
          decompose [or] H; try discriminate; try contradiction
      end;
      match goal with
      | E : ActRename _ _ = ActRename _ _ |- _ => inversion E; reflexivity
      end.
Qed.

Lemma X24_rename_only_when_names_differ_witness :
  In (ActRename "checkpoints/v1-5-pruned-emaonly.safetensors"
                "checkpoints/sd15-v1-5-pruned-emaonly.safetensors")
     (actions (MinifiedDownload.download_checkpoint
                 clean_host "sd15" "./checkpoints" None [])).
Proof.
  destruct (X24_rename_only_when_names_differ
              clean_host "sd15" "./checkpoints" None []
              (MinifiedDownload.mkCheckpointInfo
                 "runwayml/stable-diffusion-v1-5"
                 "v1-5-pruned-emaonly.safetensors"
                 "sd15-v1-5-pruned-emaonly.safetensors" "SD1.5")
              "checkpoints/v1-5-pruned-emaonly.safetensors"
              eq_refl eq_refl eq_refl eq_refl) as (_ & Hr & _).
  apply Hr. discriminate.
Defined.

(** X25: for a known checkpoint that is not yet on disk,
    [download_checkpoint] never raises once the directory could be made:
    a failure of the download, of the rename or of the size query is
    printed as a download error with the text of the exception; when it is
    the size query that fails, the success line has been printed
    already. *)
Theorem X25_checkpoint_failures_are_reported
        h key dir token stdin info e :
  let checkpoints_path := host_path h dir in
  let local_path :=
    host_joinpath h checkpoints_path (MinifiedDownload.name info) in
  let fetched :=
    host_hf_hub_download h (MinifiedDownload.repo_id info)
                         (MinifiedDownload.filename info) token
                         checkpoints_path in
  let run := MinifiedDownload.download_checkpoint h key dir token stdin in
  let error_line :=
    ActPrint ("❌ Error downloading checkpoint: " ++ str_exn e) in
  dict_get MinifiedDownload.CHECKPOINT_MODELS key = Some info ->
  host_mkdir h checkpoints_path = None ->
  host_exists h local_path = false ->
  answer run = Returns tt /\
  (fetched = Raises e -> In error_line (actions run)) /\
  (forall path,
     fetched = Returns path ->
     host_basename h path <> MinifiedDownload.name info ->
     host_rename h path local_path = Some e ->
     In error_line (actions run) /\
     ~ In (ActPrint ("✅ Successfully downloaded " ++
                     MinifiedDownload.name info)) (actions run)) /\
  (forall path,
     fetched = Returns path ->
     (host_basename h path = MinifiedDownload.name info \/
      host_rename h path local_path = None) ->
     host_size_gb h local_path = Raises e ->
     In error_line (actions run) /\
     In (ActPrint ("✅ Successfully downloaded " ++
                   MinifiedDownload.name info)) (actions run)).
Proof.
  intros checkpoints_path local_path fetched run error_line Hk Hm Hx.
  subst run error_line fetched local_path checkpoints_path.
  unfold_script. cbn -[dict_get]. rewrite Hm. cbn -[dict_get].
  rewrite Hk. cbn. rewrite Hx. cbn.
  destruct (host_hf_hub_download h _ _ token _) as [path | e0] eqn:Hf; cbn.
  - destruct (String.eqb_spec (host_basename h path)
                              (MinifiedDownload.name info)) as [He | Hne];
      cbn.
    + destruct (host_size_gb h _) as [size | e1] eqn:Hs; cbn;
        (split; [reflexivity |]); (split; [discriminate |]); split;
        intros p Hp; inversion Hp; subst p; intros; try congruence.
      match goal with H : Raises _ = Raises _ |- _ =>
        inversion H; subst end.
      split; auto 12.
    + destruct (host_rename h path _) as [e1 |] eqn:Hr; cbn.
      * (split; [reflexivity |]); (split; [discriminate |]); split;
          intros p Hp; inversion Hp; subst p; intros.
        -- assert (e1 = e) by congruence. subst e1.
           split; [auto 12 |].
           intros Hin. decompose [or] Hin; try discriminate; assumption.
        -- match goal with H : _ \/ _ |- _ => destruct H end; congruence.
      * destruct (host_size_gb h _) as [size | e2] eqn:Hs; cbn;
          (split; [reflexivity |]); (split; [discriminate |]); split;
          intros p Hp; inversion Hp; subst p; intros; try congruence.
        match goal with H : Raises _ = Raises _ |- _ =>
          inversion H; subst end.
        split; auto 12.
  - split; [reflexivity |]. split.
    + intros E. inversion E; subst. auto 12.
    + split; intros p Hp; discriminate.
Qed.

Lemma X25_checkpoint_failures_are_reported_witness :
  answer (MinifiedDownload.download_checkpoint
            offline_host "dreamshaper" "./checkpoints" None []) =
  Returns tt /\
  In (ActPrint "❌ Error downloading checkpoint: network unreachable")
     (actions (MinifiedDownload.download_checkpoint
                 offline_host "dreamshaper" "./checkpoints" None [])).
Proof.
  destruct (X25_checkpoint_failures_are_reported
              offline_host "dreamshaper" "./checkpoints" None []
              (MinifiedDownload.mkCheckpointInfo
                 "Lykon/DreamShaper" "dreamshaper_8.safetensors"
                 "dreamshaper_8.safetensors" "SD1.5")
              (mkExn "ConnectionError" "network unreachable")
              eq_refl eq_refl eq_refl) as (Ha & Hf & _).
  split; [exact Ha | apply Hf; reflexivity].
Defined.
